(** * The importer command-line client (importer/script.py)

    A shallow embedding of the importer script: the credential store (two
    files under the home directory), the API client operations, the strong
    password generator and the command dispatcher, followed by the
    properties of its exit-code and persistence contract.

    Python values are embedded as follows.
    - [str] is [string]; a character is a code point below 256.
    - the result of [response.json()] is a [pyval] (a dict is a [gmap]).
    - [sys.exit], a raised exception and a normal return are the three
      constructors of [outcome]; the program is written in the monad [M]
      of state passing over [state] with these outcomes.
    - everything outside the process (standard input, the tested paths,
      the directory listing, the HTTP server, the random source) is an
      oracle of the record [World]; the oracles of the input/output
      operations see the events of the run so far, so that a reply may
      depend on everything that happened before it.
    - the two credential files are part of the state. They hold the text
      that was written to them (on a POSIX platform a line feed is
      written as it is); reading them goes through the universal-newlines
      translation of a file opened in text mode. Reading and writing them
      does not fail, and the encoding is not part of the model.
    - a directory is what the oracle [listdir] answers for its path; the
      one call of [glob.glob] is embedded by what [glob] does with a
      pattern whose last component is [*.json]. The expansion of a
      directory name that holds pattern characters is left to the oracle
      [glob_dirs].
    - the library functions the script calls are embedded by what they
      do in CPython: [secrets.choice(seq)] is [seq[randbelow(len(seq))]],
      [random.shuffle] is the loop of exchanges from the last position
      down, an uncaught exception ends the process with status 1. *)

From Stdlib Require Import ZArith Ascii String.
From stdpp Require Import prelude strings gmap pretty.

#[local] Set Warnings "-register-all".
#[local] Open Scope Z_scope.

(** ** Strings *)

(** [str.isspace] on one code point below 256: TAB..CR, FS..US, space,
    NEL (0x85) and the no-break space (0xA0). *)
Definition isspace (c : ascii) : bool :=
  let n := N_of_ascii c in
  ((9 <=? n) && (n <=? 13) || (28 <=? n) && (n <=? 32) || (n =? 133) || (n =? 160))%N.

Fixpoint lstrip (s : string) : string :=
  match s with
  | EmptyString => EmptyString
  | String c s' => if isspace c then lstrip s' else s
  end.

Fixpoint rstrip (s : string) : string :=
  match s with
  | EmptyString => EmptyString
  | String c s' =>
      match rstrip s' with
      | EmptyString => if isspace c then EmptyString else String c EmptyString
      | r => String c r
      end
  end.

(** [s.strip()] *)
Definition strip (s : string) : string := rstrip (lstrip s).

(** What [f.read()] returns for a file opened with [open(path, "r")]
    that holds [s]: universal newlines, a carriage return is read as a
    line feed and is dropped when a line feed follows it. *)
Fixpoint universal_newlines (s : string) : string :=
  match s with
  | EmptyString => EmptyString
  | String c s' =>
      if Ascii.eqb c "013" then
        match s' with
        | String c' _ =>
            if Ascii.eqb c' "010" then universal_newlines s'
            else String "010" (universal_newlines s')
        | EmptyString => String "010" EmptyString
        end
      else String c (universal_newlines s')
  end.

(** [f.read().strip()] *)
Definition read_stripped (content : string) : string :=
  strip (universal_newlines content).

(** [s.endswith(suffix)] *)
Definition endswith (s suffix : string) : bool :=
  let n := String.length s in
  let k := String.length suffix in
  (k <=? n)%nat && String.eqb (String.substring (n - k) k s) suffix.

(** [os.path.basename(p)]: what follows the last slash. *)
Fixpoint basename (p : string) : string :=
  match p with
  | EmptyString => EmptyString
  | String c p' =>
      if Ascii.eqb c "/" then basename p'
      else if existsb (Ascii.eqb "/") (list_ascii_of_string p') then basename p'
      else p
  end.

(** [head.rstrip("/")] *)
Fixpoint rstrip_slashes (s : string) : string :=
  match s with
  | EmptyString => EmptyString
  | String c s' =>
      match rstrip_slashes s' with
      | EmptyString => if Ascii.eqb c "/" then EmptyString else String c EmptyString
      | r => String c r
      end
  end.

(** [os.path.split(p)] (posixpath): the tail is what follows the last
    slash; the head is the rest without its trailing slashes, unless it is
    made of slashes only. *)
Definition os_path_split (p : string) : string * string :=
  let tail := basename p in
  let head := String.substring 0 (String.length p - String.length tail) p in
  let head := if String.eqb (rstrip_slashes head) "" then head else rstrip_slashes head in
  (head, tail).

(** [glob.has_magic(s)]: one of the characters [*], [?] and [[] occurs. *)
Definition has_magic (s : string) : bool :=
  existsb (fun c => Ascii.eqb c "*" || Ascii.eqb c "?" || Ascii.eqb c "[")
    (list_ascii_of_string s).

(** [glob._ishidden(name)] *)
Definition ishidden (name : string) : bool := String.prefix "." name.

(** [os.path.join(a, b)] for two components (posixpath). *)
Definition path_join (a b : string) : string :=
  if String.prefix "/" b then b
  else if String.eqb a "" || endswith a "/" then a +:+ b
  else a +:+ "/" +:+ b.

(** ** Python values *)

Inductive pyval :=
| PNone
| PBool (b : bool)
| PInt (n : Z)
| PFloat (is_zero : bool)   (* a float; the script only tests it against 0.0 *)
| PStr (s : string)
| PList (l : list pyval)
| PDict (d : gmap string pyval).

(** Truth value of an object, as tested by [if v:] and [if not v:]. *)
Definition truthy (v : pyval) : bool :=
  match v with
  | PNone => false
  | PBool b => b
  | PInt n => negb (n =? 0)
  | PFloat z => negb z
  | PStr s => negb (String.eqb s "")
  | PList l => negb (bool_decide (length l = 0%nat))
  | PDict d => negb (bool_decide (size d = 0%nat))
  end.

(** [v == "literal"] *)
Definition eq_str (v : pyval) (lit : string) : bool :=
  match v with
  | PStr s => String.eqb s lit
  | _ => false
  end.

(** A value of type [str | None], as returned by the two loaders. *)
Definition of_opt (o : option string) : pyval :=
  match o with
  | Some s => PStr s
  | None => PNone
  end.

(** ** Exceptions, requests, events *)

(** The handlers of the script tell two classes apart:
    [requests.exceptions.RequestException] (with its subclasses) and every
    other subclass of [Exception]. *)
Inductive exn_class := RequestException | OtherException.

Record exn := Exn { exn_kind : exn_class; exn_msg : string }.

Definition is_request_exception (e : exn) : bool :=
  match exn_kind e with
  | RequestException => true
  | OtherException => false
  end.

Definition any_exception (e : exn) : bool := true.

Inductive body :=
| NoBody
| JsonBody (j : pyval)                          (* json=... *)
| FileBody (filename path content_type : string). (* files={"file": (...)} *)

Record request := Request {
  method : string;
  url : string;
  headers : list (string * string);
  payload : body
}.

(** A response; [json] is what [response.json()] returns or raises. *)
Record response := Response {
  status_code : Z;
  text : string;
  json : exn + pyval
}.

(** One piece of a printed line: literal text (formatted integers and
    exception messages included) or the [str()] of a value. *)
Inductive fragment :=
| FStr (s : string)
| FVal (v : pyval).

Inductive event :=
| EvPrint (line : list fragment)
| EvInput (prompt : string) (r : exn + string)
| EvGetpass (prompt : string) (r : exn + string)
| EvOpen (path : string) (r : option exn)
| EvHttp (req : request) (r : exn + response).

(** ** The world outside the process *)

Record World := {
  stdin_input : list event -> string -> exn + string;
  stdin_getpass : list event -> string -> exn + string;
  path_isfile : list event -> string -> bool;
  path_isdir : list event -> string -> bool;
  listdir : list event -> string -> list string;    (* the entries of a directory,
                                                        none when it cannot be read *)
  glob_dirs : list event -> string -> list string;  (* the directories a pattern names *)
  file_open : list event -> string -> option exn;
  http : list event -> request -> exn + response;
  random_source : nat -> nat;
  expanduser : string -> string   (* os.path.expanduser *)
}.

(** ** Process state *)

(** The two credential files; [None] is a file that does not exist. *)
Record files := Files {
  token_file : option string;          (* TOKEN_FILE *)
  takhtit_uuid_file : option string    (* TAKHTIT_UUID_FILE *)
}.

Record state := State {
  fs : files;
  trace : list event;   (* oldest event first *)
  draws : nat           (* how many random numbers were drawn *)
}.

Definition log (ev : event) (s : state) : state :=
  State (fs s) (trace s ++ [ev]) (draws s).

Definition set_fs (f : files) (s : state) : state :=
  State f (trace s) (draws s).

Definition set_draws (d : nat) (s : state) : state :=
  State (fs s) (trace s) d.

(** ** The monad of the script *)

Inductive outcome (A : Type) :=
| Normal (a : A)
| Raised (e : exn)
| Exited (code : Z).
Arguments Normal {A} a.
Arguments Raised {A} e.
Arguments Exited {A} code.

Definition M (A : Type) : Type := state -> outcome A * state.

Definition ret {A} (a : A) : M A := fun s => (Normal a, s).

Definition bind {A B} (m : M A) (f : A -> M B) : M B :=
  fun s =>
    match m s with
    | (Normal a, s') => f a s'
    | (Raised e, s') => (Raised e, s')
    | (Exited c, s') => (Exited c, s')
    end.

#[global] Instance M_ret : MRet M := @ret.
#[global] Instance M_bind : MBind M := fun A B f m => bind m f.

Definition raise {A} (e : exn) : M A := fun s => (Raised e, s).

(** [sys.exit(code)]: SystemExit is not an [Exception], no handler of the
    script catches it. *)
Definition sys_exit {A} (code : Z) : M A := fun s => (Exited code, s).

(** [try: body  except <class> as e: handler e] *)
Definition try_except {A} (body : M A) (catches : exn -> bool) (handler : exn -> M A) : M A :=
  fun s =>
    match body s with
    | (Raised e, s') => if catches e then handler e s' else (Raised e, s')
    | r => r
    end.

(** The exit status of the process: 0 after a normal return, the argument
    of [sys.exit], 1 after an uncaught exception. *)
Definition exit_status {A} (o : outcome A) : Z :=
  match o with
  | Normal _ => 0
  | Raised _ => 1
  | Exited c => c
  end.

Definition type_error (msg : string) : exn := Exn OtherException msg.
Definition attribute_error (msg : string) : exn := Exn OtherException msg.
Definition index_error (msg : string) : exn := Exn OtherException msg.

(** [l[i]] *)
Definition getitem {A} (l : list A) (i : nat) : M A :=
  match l !! i with
  | Some a => ret a
  | None => raise (index_error "list index out of range")
  end.

(** [v.get(key)]: a dict answers (None when the key is missing), any other
    JSON value has no such method. *)
Definition py_get (v : pyval) (key : string) : M pyval :=
  match v with
  | PDict d => ret (default PNone (d !! key))
  | _ => raise (attribute_error "object has no attribute 'get'")
  end.

(** [response.json()] *)
Definition response_json (r : response) : M pyval :=
  match json r with
  | inr v => ret v
  | inl e => raise e
  end.

Definition print (line : list fragment) : M unit :=
  fun s => (Normal tt, log (EvPrint line) s).

Definition print_str (line : string) : M unit := print [FStr line].

(** ** Operations on the world *)

Section Script.

Variable w : World.

(** [input(prompt)] *)
Definition input (prompt : string) : M string :=
  fun s =>
    let r := stdin_input w (trace s) prompt in
    let s' := log (EvInput prompt r) s in
    match r with
    | inr line => (Normal line, s')
    | inl e => (Raised e, s')
    end.

(** [getpass.getpass(prompt)] *)
Definition getpass (prompt : string) : M string :=
  fun s =>
    let r := stdin_getpass w (trace s) prompt in
    let s' := log (EvGetpass prompt r) s in
    match r with
    | inr line => (Normal line, s')
    | inl e => (Raised e, s')
    end.

Definition os_path_isfile (path : string) : M bool :=
  fun s => (Normal (path_isfile w (trace s) path), s).

Definition os_path_isdir (path : string) : M bool :=
  fun s => (Normal (path_isdir w (trace s) path), s).

(** [glob._glob1(dirname, "*.json", ...)]: the entries of the directory
    that match. An entry that begins with a dot is hidden from a pattern
    that does not; [fnmatch] of [*.json] is: the name ends in [.json]. *)
Definition glob1_json (dirname : string) : M (list string) :=
  fun s =>
    let names := listdir w (trace s) (if String.eqb dirname "" then "." else dirname) in
    (Normal (List.filter (fun name => negb (ishidden name) && endswith name ".json") names), s).

(** [for name in _glob1(dirname, ...): yield os.path.join(dirname, name)],
    over the directories [dirs]. *)
Fixpoint glob_in_dirs (dirs : list string) : M (list string) :=
  match dirs with
  | [] => ret []
  | dirname :: rest =>
      names ← glob1_json dirname;
      more ← glob_in_dirs rest;
      ret ((path_join dirname <$> names) ++ more)
  end.

(** [glob.glob(pathname)] for a pathname whose last component is the
    pattern [*.json], as the script builds it. *)
Definition glob (pathname : string) : M (list string) :=
  let '(dirname, _) := os_path_split pathname in
  if String.eqb dirname "" then glob1_json ""
  else
    dirs ← (if has_magic dirname
            then fun s => (Normal (glob_dirs w (trace s) dirname), s)
            else ret [dirname]);
    glob_in_dirs dirs.

(** [open(path, "rb")] *)
Definition open_rb (path : string) : M unit :=
  fun s =>
    let r := file_open w (trace s) path in
    let s' := log (EvOpen path r) s in
    match r with
    | None => (Normal tt, s')
    | Some e => (Raised e, s')
    end.

(** [requests.post] and [requests.get]: the one place where the process
    talks to the network. *)
Definition requests_send (req : request) : M response :=
  fun s =>
    let r := http w (trace s) req in
    let s' := log (EvHttp req r) s in
    match r with
    | inr resp => (Normal resp, s')
    | inl e => (Raised e, s')
    end.

Definition requests_post (u : string) (h : list (string * string)) (b : body) : M response :=
  requests_send (Request "POST" u h b).

Definition requests_get (u : string) (h : list (string * string)) : M response :=
  requests_send (Request "GET" u h NoBody).

(** [random._randbelow(n)] of the system random source, for [n > 0]. *)
Definition randbelow (n : nat) : M nat :=
  fun s => (Normal (random_source w (draws s) `mod` n)%nat, set_draws (S (draws s)) s).

(** ** Credential store *)

(** [with open(FILE, "w") as f: f.write(v)]. Opening truncates the file;
    [write] accepts a [str] only. *)
Definition write_token_file (v : pyval) : M unit :=
  fun s =>
    match v with
    | PStr t => (Normal tt, set_fs (Files (Some t) (takhtit_uuid_file (fs s))) s)
    | _ => (Raised (type_error "write() argument must be str"),
            set_fs (Files (Some "") (takhtit_uuid_file (fs s))) s)
    end.

Definition load_token : M (option string) :=
  fun s => (Normal (read_stripped <$> token_file (fs s)), s).

Definition save_takhtit_uuid (uuid : pyval) : M unit :=
  fun s =>
    match uuid with
    | PStr t => (Normal tt, set_fs (Files (token_file (fs s)) (Some t)) s)
    | _ => (Raised (type_error "write() argument must be str"),
            set_fs (Files (token_file (fs s)) (Some "")) s)
    end.

Definition load_takhtit_uuid : M (option string) :=
  fun s => (Normal (read_stripped <$> takhtit_uuid_file (fs s)), s).

(** ** Strong password generator *)

Definition ascii_lowercase : string := "abcdefghijklmnopqrstuvwxyz".
Definition ascii_uppercase : string := "ABCDEFGHIJKLMNOPQRSTUVWXYZ".
Definition ascii_letters : string := ascii_lowercase +:+ ascii_uppercase.
Definition digits : string := "0123456789".
Definition symbols : string := "-_@#$%".

(** [secrets.choice(seq)] *)
Definition secrets_choice (seq : string) : M ascii :=
  let l := list_ascii_of_string seq in
  match l with
  | [] => raise (index_error "Cannot choose from an empty sequence")
  | _ => j ← randbelow (length l); getitem l j
  end.

(** [[secrets.choice(seq) for _ in range(n)]] *)
Fixpoint choices (n : nat) (seq : string) : M (list ascii) :=
  match n with
  | O => ret []
  | S n' => c ← secrets_choice seq; cs ← choices n' seq; ret (c :: cs)
  end.

(** [x[i], x[j] = x[j], x[i]] *)
Definition swap (x : list ascii) (i j : nat) : M (list ascii) :=
  xj ← getitem x j;
  xi ← getitem x i;
  ret (<[j := xi]> (<[i := xj]> x)).

(** The loop of [random.shuffle]:
    [for i in reversed(range(1, len(x))): j = randbelow(i + 1); swap]. *)
Fixpoint shuffle_from (i : nat) (x : list ascii) : M (list ascii) :=
  match i with
  | O => ret x
  | S i' => j ← randbelow (S i); x' ← swap x i j; shuffle_from i' x'
  end.

Definition shuffle (x : list ascii) : M (list ascii) :=
  shuffle_from (length x - 1) x.

Definition generate_strong_password (length : Z) : M string :=
  let length := if length <? 8 then 8 else length in
  let alphabet := ascii_letters +:+ digits +:+ symbols in
  c1 ← secrets_choice ascii_lowercase;
  c2 ← secrets_choice ascii_uppercase;
  c3 ← secrets_choice digits;
  c4 ← secrets_choice symbols;
  let password_chars := [c1; c2; c3; c4] in
  more ← choices (Z.to_nat (length - Z.of_nat (List.length password_chars))) alphabet;
  let password_chars := password_chars ++ more in
  password_chars ← shuffle password_chars;
  ret (string_of_list_ascii password_chars).

(** ** API client *)

(** [f"{v}"] for a value of type [str | None] *)
Definition format_opt (o : option string) : string := default "None" o.

(** [headers = {}; if token: headers["Authorization"] = f"Token {token}"] *)
Definition upload_headers (token : option string) : list (string * string) :=
  if truthy (of_opt token) then [("Authorization", "Token " +:+ format_opt token)] else [].

Definition send_file_to_api (file_path api_url : string) (token : option string) : M response :=
  open_rb file_path;;
  let files := FileBody (basename file_path) file_path "application/json" in
  let headers := upload_headers token in
  requests_post (api_url +:+ "/mushafs/import/") headers files.

Definition send_translation_to_api (file_path api_url : string) (token : option string) : M response :=
  open_rb file_path;;
  let files := FileBody (basename file_path) file_path "application/json" in
  let headers := upload_headers token in
  requests_post (api_url +:+ "/translations/import/") headers files.

(** [print(response.status_code, response.text)] *)
Definition print_status_text (r : response) : M unit :=
  print_str (pretty (status_code r) +:+ " " +:+ text r).

Definition login (api_url : string) (username password : option string) : M unit :=
  username ← match username with
             | None => input "Username: "
             | Some u => ret u
             end;
  password ← match password with
             | None => getpass "Password: "
             | Some p => ret p
             end;
  let data := PDict {[ "username" := PStr username; "password" := PStr password ]} in
  try_except
    (response ← requests_post (api_url +:+ "/auth/login/") [] (JsonBody data);
     if status_code response =? 200 then
       j ← response_json response;
       token ← py_get j "token";
       if truthy token then
         write_token_file token;;
         print_str "Login successful. Token saved."
       else
         print_str "Login failed: No token in response."
     else
       print_str ("Login failed: " +:+ pretty (status_code response) +:+ " " +:+ text response))
    any_exception
    (fun e => print_str ("Login error: " +:+ exn_msg e);; sys_exit 1).

Definition not_logged_in : string := "No token found. Please login first.".

Definition json_headers (token : option string) : list (string * string) :=
  [("Authorization", "Token " +:+ format_opt token);
   ("accept", "application/json");
   ("Content-Type", "application/json")].

Definition user_payload (generated_password : string) : pyval :=
  PDict {[ "username" := PStr "uthmantaha";
           "password" := PStr generated_password;
           "password2" := PStr generated_password;
           "email" := PStr "user@example.com";
           "first_name" := PStr "Uthman";
           "last_name" := PStr "Taha" ]}.

Definition create_user (api_url : string) : M pyval :=
  token ← load_token;
  (if negb (truthy (of_opt token)) then
     print_str not_logged_in;; sys_exit 1
   else ret tt);;
  let headers := json_headers token in
  generated_password ← generate_strong_password 16;
  let user_payload := user_payload generated_password in
  try_except
    (resp ← requests_post (api_url +:+ "/users/") headers (JsonBody user_payload);
     print_str "Create user response:";;
     print_status_text resp;;
     if status_code resp =? 201 then
       user_data ← response_json resp;
       account_uuid ← py_get user_data "uuid";
       print [FStr "User created successfully. UUID: "; FVal account_uuid];;
       ret account_uuid
     else
       print_str "Failed to create user.";; sys_exit 1)
    is_request_exception
    (fun e => print_str ("Failed to create user: " +:+ exn_msg e);; sys_exit 1).

(** [for mushaf in mushafs]: the elements a [for] loop visits. Every key
    of a dict and every character of a string is a [str]. *)
Definition py_iter (v : pyval) : M (list pyval) :=
  match v with
  | PList l => ret l
  | PDict d => ret (PStr <$> (map_to_list d).*1)
  | PStr s => ret ((fun c => PStr (String c EmptyString)) <$> list_ascii_of_string s)
  | _ => raise (type_error "object is not iterable")
  end.

(** The scan for the mushaf named hafs; the result is [hafs_uuid]. *)
Fixpoint find_hafs (mushafs : list pyval) : M pyval :=
  match mushafs with
  | [] => ret PNone
  | mushaf :: rest =>
      short_name ← py_get mushaf "short_name";
      if eq_str short_name "hafs" then py_get mushaf "uuid"
      else find_hafs rest
  end.

Definition takhtit_payload (hafs_uuid account_uuid : pyval) : pyval :=
  PDict {[ "mushaf_uuid" := hafs_uuid; "account_uuid" := account_uuid ]}.

Definition TAKHTIT_UUID_FILE : string := expanduser w "~/.importer_takhtit_uuid".

Definition create_takhtit (api_url : string) : M unit :=
  token ← load_token;
  (if negb (truthy (of_opt token)) then
     print_str not_logged_in;; sys_exit 1
   else ret tt);;
  let headers := json_headers token in
  account_uuid ← create_user api_url;
  mushafs ←
    try_except
      (resp ← requests_get (api_url +:+ "/mushafs/") headers;
       (if negb (status_code resp =? 200) then
          print_str ("Failed to fetch mushafs: " +:+ pretty (status_code resp) +:+ " " +:+ text resp);;
          sys_exit 1
        else ret tt);;
       response_json resp)
      is_request_exception
      (fun e => print_str ("Failed to fetch mushafs: " +:+ exn_msg e);; sys_exit 1);
  items ← py_iter mushafs;
  hafs_uuid ← find_hafs items;
  (if negb (truthy hafs_uuid) then
     print_str "Could not find Mushaf with short_name 'hafs'.";; sys_exit 1
   else ret tt);;
  let payload := takhtit_payload hafs_uuid account_uuid in
  try_except
    (response ← requests_post (api_url +:+ "/takhtits/") headers (JsonBody payload);
     print_str "Create Takhtit response:";;
     print_status_text response;;
     if status_code response =? 201 then
       takhtit_data ← response_json response;
       takhtit_uuid ← py_get takhtit_data "uuid";
       if truthy takhtit_uuid then
         save_takhtit_uuid takhtit_uuid;;
         print [FStr "Takhtit created successfully. UUID: "; FVal takhtit_uuid];;
         print_str ("Takhtit UUID saved to " +:+ TAKHTIT_UUID_FILE)
       else
         print_str "Takhtit created but no UUID in response."
     else
       print_str "Failed to create Takhtit.";; sys_exit 1)
    is_request_exception
    (fun e => print_str ("Failed to create Takhtit: " +:+ exn_msg e);; sys_exit 1).

Definition no_takhtit_uuid : string :=
  "No takhtit UUID found. Please create a takhtit first.".

(** [status not in [200, 201]] *)
Definition not_in_200_201 (status : Z) : bool :=
  negb ((status =? 200) || (status =? 201)).

Definition import_takhtit (file_path type_name api_url : string) : M unit :=
  token ← load_token;
  (if negb (truthy (of_opt token)) then
     print_str not_logged_in;; sys_exit 1
   else ret tt);;
  uuid ← load_takhtit_uuid;
  (if negb (truthy (of_opt uuid)) then
     print_str no_takhtit_uuid;; sys_exit 1
   else ret tt);;
  isfile ← os_path_isfile file_path;
  (if negb isfile then
     print_str ("File not found: " +:+ file_path);; sys_exit 1
   else ret tt);;
  let headers := [("Authorization", "Token " +:+ format_opt token);
                  ("accept", "application/json")] in
  let url := api_url +:+ "/takhtits/" +:+ format_opt uuid +:+ "/import/?type=" +:+ type_name in
  try_except
    (open_rb file_path;;
     let files := FileBody (basename file_path) file_path "application/json" in
     response ← requests_post url headers files;
     print_str "Import response:";;
     print_status_text response;;
     if not_in_200_201 (status_code response) then
       print_str ("Import failed with status code: " +:+ pretty (status_code response));;
       sys_exit 1
     else ret tt)
    any_exception
    (fun e =>
       if is_request_exception e then
         print_str ("Failed to import file: " +:+ exn_msg e);; sys_exit 1
       else
         print_str ("Error during import: " +:+ exn_msg e);; sys_exit 1).

(** ** Command dispatcher *)

Definition usage_general : list string :=
  ["Usage: python script.py <command> [args...]";
   "Commands:";
   "  login <api_url> [username password] [--non-interactive]";
   "  import-mushaf <input_json_file> <api_url>";
   "  import-translations <translations_dir> <api_url>";
   "  import-translation <input_json_file> <api_url>";
   "  create-takhtit <api_url>";
   "  import-takhtit <json_file> <type> <api_url>"].

Definition usage_login_flag : string :=
  "Usage: python script.py login <api_url> <username> <password> --non-interactive".
Definition usage_login : string :=
  "Usage: python script.py login <api_url> [username password] [--non-interactive]".
Definition usage_import_mushaf : string :=
  "Usage: python script.py import-mushaf <input_json_file> <api_url>".
Definition usage_import_translations : string :=
  "Usage: python script.py import-translations <translations_dir> <api_url>".
Definition usage_import_translation : string :=
  "Usage: python script.py import-translation <input_json_file> <api_url>".
Definition usage_create_takhtit : string :=
  "Usage: python script.py create-takhtit <api_url>".
Definition usage_import_takhtit : string :=
  "Usage: python script.py import-takhtit <json_file> <type> <api_url>".

Fixpoint print_lines (lines : list string) : M unit :=
  match lines with
  | [] => ret tt
  | l :: rest => print_str l;; print_lines rest
  end.

Definition flag : string := "--non-interactive".

(** [args.index(x)] *)
Definition list_index (args : list string) (x : string) : M nat :=
  match list_find (fun a => a = x) args with
  | Some (i, _) => ret i
  | None => raise (Exn OtherException "is not in list")
  end.

(** [try: print("Response:", response.json())
     except Exception: print("Response (non-JSON):", response.text)] *)
Definition print_response (indent : string) (response : response) : M unit :=
  try_except
    (j ← response_json response;
     print [FStr (indent +:+ "Response: "); FVal j])
    any_exception
    (fun _ => print_str (indent +:+ "Response (non-JSON): " +:+ text response)).

(** The body of the single-file commands import-mushaf and
    import-translation, which differ in the sender only. *)
Definition import_one (usage : string)
    (send : string -> string -> option string -> M response)
    (args : list string) : M unit :=
  (if negb (bool_decide (length args = 4%nat)) then
     print_str usage;; sys_exit 1
   else ret tt);;
  input_file ← getitem args 2;
  api_url ← getitem args 3;
  isfile ← os_path_isfile input_file;
  (if negb isfile then
     print_str ("Error: File '" +:+ input_file +:+ "' does not exist.");; sys_exit 1
   else ret tt);;
  (if negb (endswith input_file ".json") then
     print_str "Error: Input file must be a .json file.";; sys_exit 1
   else ret tt);;
  token ← load_token;
  try_except
    (response ← send input_file api_url token;
     print_str ("Status code: " +:+ pretty (status_code response));;
     (if not_in_200_201 (status_code response) then
        print_str ("Import failed with status code: " +:+ pretty (status_code response));;
        sys_exit 1
      else ret tt);;
     print_response "" response)
    any_exception
    (fun e => print_str ("Failed to send file: " +:+ exn_msg e);; sys_exit 1).

(** One turn of the loop of import-translations; the result is the pair
    [(success_count, failed_count)] after the turn. Only the call of
    [send_translation_to_api] can raise inside the [try], so the handler
    finds both counters as they were before the turn. *)
Definition import_translations_step (api_url : string) (token : option string)
    (counts : nat * nat) (file_path : string) : M (nat * nat) :=
  let '(success_count, failed_count) := counts in
  print_str ("Importing " +:+ file_path +:+ "...");;
  try_except
    (response ← send_translation_to_api file_path api_url token;
     print_str ("  Status code: " +:+ pretty (status_code response));;
     counts ←
       (if negb (not_in_200_201 (status_code response)) then
          print_str "Success";;
          ret (S success_count, failed_count)
        else
          print_str ("Failed with status code: " +:+ pretty (status_code response));;
          ret (success_count, S failed_count));
     print_response "  " response;;
     ret counts)
    any_exception
    (fun e =>
       print_str ("Failed to import " +:+ file_path +:+ ": " +:+ exn_msg e);;
       ret (success_count, S failed_count)).

Fixpoint import_translations_loop (api_url : string) (token : option string)
    (counts : nat * nat) (json_files : list string) : M (nat * nat) :=
  match json_files with
  | [] => ret counts
  | file_path :: rest =>
      counts ← import_translations_step api_url token counts file_path;
      import_translations_loop api_url token counts rest
  end.

Definition import_summary (counts : nat * nat) : string :=
  String "010" "Import Summary: " +:+ pretty counts.1 +:+ " successful, "
    +:+ pretty counts.2 +:+ " failed".

Definition import_translations (args : list string) : M unit :=
  (if negb (bool_decide (length args = 4%nat)) then
     print_str usage_import_translations;; sys_exit 1
   else ret tt);;
  translations_dir ← getitem args 2;
  api_url ← getitem args 3;
  isdir ← os_path_isdir translations_dir;
  (if negb isdir then
     print_str ("Error: Directory '" +:+ translations_dir +:+ "' does not exist.");;
     sys_exit 1
   else ret tt);;
  token ← load_token;
  json_files ← glob (path_join translations_dir "*.json");
  (if bool_decide (json_files = []) then
     print_str ("No .json files found in directory '" +:+ translations_dir +:+ "'.");;
     sys_exit 1
   else ret tt);;
  counts ← import_translations_loop api_url token (0%nat, 0%nat) json_files;
  print_str (import_summary counts);;
  if bool_decide (0 < counts.2)%nat then sys_exit 1 else ret tt.

Definition login_command (args : list string) : M unit :=
  if bool_decide (flag ∈ args) then
    try_except
      (flag_index ← list_index args flag;
       let args_wo_flag := take flag_index args ++ drop (flag_index + 1) args in
       (if negb (bool_decide (length args_wo_flag = 5%nat)) then
          print_str usage_login_flag;; sys_exit 1
        else ret tt);;
       api_url ← getitem args_wo_flag 2;
       username ← getitem args_wo_flag 3;
       password ← getitem args_wo_flag 4;
       login api_url (Some username) (Some password))
      any_exception
      (fun _ => print_str usage_login_flag;; sys_exit 1)
  else if bool_decide (length args = 3%nat) then
    api_url ← getitem args 2;
    login api_url None None
  else if bool_decide (length args = 5%nat) then
    api_url ← getitem args 2;
    username ← getitem args 3;
    password ← getitem args 4;
    login api_url (Some username) (Some password)
  else
    print_str usage_login;; sys_exit 1.

Definition main (args : list string) : M unit :=
  (if bool_decide (length args < 2)%nat then
     print_lines usage_general;; sys_exit 1
   else ret tt);;
  command ← getitem args 1;
  if String.eqb command "login" then
    login_command args
  else if String.eqb command "import-mushaf" then
    import_one usage_import_mushaf send_file_to_api args
  else if String.eqb command "import-translations" then
    import_translations args
  else if String.eqb command "import-translation" then
    import_one usage_import_translation send_translation_to_api args
  else if String.eqb command "create-takhtit" then
    (if negb (bool_decide (length args = 3%nat)) then
       print_str usage_create_takhtit;; sys_exit 1
     else ret tt);;
    api_url ← getitem args 2;
    create_takhtit api_url
  else if String.eqb command "import-takhtit" then
    (if negb (bool_decide (length args = 5%nat)) then
       print_str usage_import_takhtit;; sys_exit 1
     else ret tt);;
    file_path ← getitem args 2;
    type_name ← getitem args 3;
    api_url ← getitem args 4;
    import_takhtit file_path type_name api_url
  else
    print_str ("Unknown command: " +:+ command);; sys_exit 1.

(** [if __name__ == "__main__": main(sys.argv)]: the process starts with
    the credential files as they are on disk and ends with an exit status,
    the files as it leaves them and the events it caused. *)
Record result := Result {
  exit_code : Z;
  disk_after : files;
  events : list event
}.

Definition run_main (disk : files) (argv : list string) : result :=
  let r := main argv (State disk [] 0) in
  Result (exit_status r.1) (fs r.2) (trace r.2).

End Script.

(** ** Vocabulary of the properties *)

(** The four character classes of the password policy. *)
Definition is_lower (c : ascii) : bool :=
  ((97 <=? N_of_ascii c) && (N_of_ascii c <=? 122))%N.
Definition is_upper (c : ascii) : bool :=
  ((65 <=? N_of_ascii c) && (N_of_ascii c <=? 90))%N.
Definition is_digit (c : ascii) : bool :=
  ((48 <=? N_of_ascii c) && (N_of_ascii c <=? 57))%N.
Definition is_symbol (c : ascii) : bool :=
  bool_decide (c ∈ list_ascii_of_string "-_@#$%").

Definition contains (p : ascii -> bool) (s : string) : Prop :=
  ∃ c, c ∈ list_ascii_of_string s ∧ p c = true.

(** The password policy, for a requested length [n]. *)
Definition password_policy (n : Z) (pw : string) : Prop :=
  (8 <= n -> Z.of_nat (String.length pw) = n) ∧
  (n < 8 -> String.length pw = 8%nat) ∧
  contains is_lower pw ∧ contains is_upper pw ∧
  contains is_digit pw ∧ contains is_symbol pw.

(** A computation that only consumes random numbers: it returns normally,
    and the state changes in the number of draws at most; its
    result satisfies [P]. *)
Definition rng_only {A} (m : M A) (P : A -> Prop) : Prop :=
  ∀ s, ∃ a d, m s = (Normal a, set_draws d s) ∧ P a.

(** The events a computation adds to the trace of the state it starts in. *)
Definition emitted {A} (m : M A) (s : state) : list event :=
  drop (length (trace s)) (trace (m s).2).

(** The requests sent to the server, in order. *)
Definition network_calls (tr : list event) : list request :=
  omap (fun ev => match ev with EvHttp req _ => Some req | _ => None end) tr.

(** The server answered [resp] to a request [meth u]. *)
Definition received (tr : list event) (meth u : string) (resp : response) : Prop :=
  ∃ h b, EvHttp (Request meth u h b) (inr resp) ∈ tr.

(** A request [meth u] carrying [b] was sent. *)
Definition sent (tr : list event) (meth u : string) (b : body) : Prop :=
  ∃ h, Request meth u h b ∈ network_calls tr.

(** A JSON value with a member [key]. *)
Definition has_field (j : pyval) (key : string) : bool :=
  match j with
  | PDict d => bool_decide (is_Some (d !! key))
  | _ => false
  end.

(** Contents that are empty or made of whitespace only. *)
Definition blank (content : string) : Prop :=
  Forall (fun c => isspace c = true) (list_ascii_of_string content).

(** A string with no whitespace at either end. *)
Definition trimmed (s : string) : Prop :=
  (∀ c r, s = String c r -> isspace c = false) ∧
  (∀ r c, s = r +:+ String c EmptyString -> isspace c = false).

(** [v] is [content] trimmed: [content] is [v] with nothing but
    whitespace before and after it, and [v] has none at its ends. *)
Definition trimming (content v : string) : Prop :=
  ∃ pre post, content = pre +:+ v +:+ post ∧ blank pre ∧ blank post ∧ trimmed v.

(** A string without a carriage return. *)
Definition no_cr (s : string) : Prop :=
  "013"%char ∉ list_ascii_of_string s.

(** The credential [v] is cached in [file]: the file exists and holds
    [v], which has no carriage return, with whitespace around it at
    most. *)
Definition cached (file : option string) (v : string) : Prop :=
  ∃ content, file = Some content ∧ trimming content v ∧ no_cr v.

(** The credential round trip as the specification words it: whatever
    string is written, what is loaded afterwards is that string trimmed. *)
Definition round_trip_claim (s : state) : Prop :=
  ∀ t v, trimming t v ->
    (load_token (write_token_file (PStr t) s).2).1 = Normal (Some v) ∧
    (load_takhtit_uuid (save_takhtit_uuid (PStr t) s).2).1 = Normal (Some v).

(** The state [s] with the token file removed. *)
Definition without_token_file (s : state) : state :=
  set_fs (Files None (takhtit_uuid_file (fs s))) s.

(** The state [s] with the takhtit identifier file removed. *)
Definition without_takhtit_uuid_file (s : state) : state :=
  set_fs (Files (token_file (fs s)) None) s.

(** A sample world: the server answers by the table [server], the random
    source counts upwards, every path is a file and a directory that can
    be opened, the entries of every directory are [listing], the terminal
    supplies fixed credentials. The texts of the sample bodies are abbreviated. *)
Definition sample_world (server : request -> exn + response) (listing : list string) : World := {|
  stdin_input := fun _ _ => inr "reader";
  stdin_getpass := fun _ _ => inr "secret";
  path_isfile := fun _ _ => true;
  path_isdir := fun _ _ => true;
  listdir := fun _ _ => listing;
  glob_dirs := fun _ _ => [];
  file_open := fun _ _ => None;
  http := fun _ req => server req;
  random_source := fun i => i;
  expanduser := fun p => p
|}.

Definition no_disk : files := Files None None.

(** A server that rejects every request with status 401 and a body of
    plain text. *)
Definition rejecting_server (req : request) : exn + response :=
  inr (Response 401 "Invalid credentials"
         (inl (Exn RequestException "Expecting value"))).

(** A server that accepts the login with a body that has no token. *)
Definition tokenless_server (req : request) : exn + response :=
  inr (Response 200 "{}" (inr (PDict ∅))).

(** The commands of the dispatcher. *)
Definition known_commands : list string :=
  ["login"; "import-mushaf"; "import-translations"; "import-translation";
   "create-takhtit"; "import-takhtit"].

(** The argument vectors the command table admits: a known command with
    as many entries (program name and command included) as the command
    takes. A login takes the URL alone or the URL with both credentials,
    and with the flag it takes both credentials. *)
Definition accepted (argv : list string) : bool :=
  match argv !! 1%nat with
  | None => false
  | Some command =>
      let n := length argv in
      if String.eqb command "login" then
        if bool_decide (flag ∈ argv) then bool_decide (n = 6%nat)
        else bool_decide (n = 3%nat) || bool_decide (n = 5%nat)
      else if String.eqb command "import-mushaf" then bool_decide (n = 4%nat)
      else if String.eqb command "import-translations" then bool_decide (n = 4%nat)
      else if String.eqb command "import-translation" then bool_decide (n = 4%nat)
      else if String.eqb command "create-takhtit" then bool_decide (n = 3%nat)
      else if String.eqb command "import-takhtit" then bool_decide (n = 5%nat)
      else false
  end.

(** What the dispatcher prints for a vector it does not admit. *)
Definition rejection (argv : list string) : list string :=
  match argv !! 1%nat with
  | None => usage_general
  | Some command =>
      if String.eqb command "login" then
        [if bool_decide (flag ∈ argv) then usage_login_flag else usage_login]
      else if String.eqb command "import-mushaf" then [usage_import_mushaf]
      else if String.eqb command "import-translations" then [usage_import_translations]
      else if String.eqb command "import-translation" then [usage_import_translation]
      else if String.eqb command "create-takhtit" then [usage_create_takhtit]
      else if String.eqb command "import-takhtit" then [usage_import_takhtit]
      else ["Unknown command: " +:+ command]
  end.

(** The events of printing the given lines. *)
Definition printed (lines : list string) : list event :=
  (fun l => EvPrint [FStr l]) <$> lines.

(** A usage message was printed. *)
Definition usage_printed (tr : list event) : Prop :=
  ∃ line, EvPrint [FStr line] ∈ tr ∧ String.prefix "Usage:" line = true.

(** The dispatcher contract as the specification words it: a vector that
    is not admitted gets a usage message and exit status 1, before any
    network call. *)
Definition dispatcher_claim (w : World) (disk : files) (argv : list string) : Prop :=
  accepted argv = false ->
  let r := run_main w disk argv in
  exit_code r = 1 ∧ network_calls (events r) = [] ∧ usage_printed (events r).

(** The login contract as the specification words it: a login that is
    answered by a status other than 200 ends the process with a status
    other than 0. *)
Definition login_claim (w : World) (disk : files) (argv : list string) : Prop :=
  ∀ resp,
    received (events (run_main w disk argv)) "POST"
      (default "" (argv !! 2%nat) +:+ "/auth/login/") resp ->
    status_code resp ≠ 200 ->
    exit_code (run_main w disk argv) ≠ 0.

(** The paths whose upload was attempted, in order: every call of a
    sender starts by opening the file. *)
Definition attempted (tr : list event) : list string :=
  omap (fun ev => match ev with EvOpen path _ => Some path | _ => None end) tr.

(** The statuses that make an upload a success: 200 and 201. *)
Definition success_status (status : Z) : Prop :=
  status = 200 ∨ status = 201.

(** An event that makes an upload fail: the file cannot be opened, the
    transport raises, or the status is neither 200 nor 201. *)
Definition upload_failed (ev : event) : bool :=
  match ev with
  | EvOpen _ (Some _) => true
  | EvHttp _ (inl _) => true
  | EvHttp _ (inr resp) => bool_decide (¬ success_status (status_code resp))
  | _ => false
  end.

(** The event of an upload that succeeds: a response with status 200 or
    201. *)
Definition upload_succeeded (ev : event) : bool :=
  match ev with
  | EvHttp _ (inr resp) => bool_decide (success_status (status_code resp))
  | _ => false
  end.

Definition failures (tr : list event) : nat := length (List.filter upload_failed tr).
Definition successes (tr : list event) : nat := length (List.filter upload_succeeded tr).

(** A server that accepts every upload but the one of [bad]. *)
Definition picky_server (bad : string) (req : request) : exn + response :=
  match payload req with
  | FileBody _ path _ =>
      if String.eqb path bad then inr (Response 400 "Bad Request" (inl (Exn RequestException "Expecting value")))
      else inr (Response 201 "{}" (inr (PDict ∅)))
  | _ => inr (Response 404 "Not Found" (inl (Exn RequestException "Expecting value")))
  end.

(** What [create_user] adds to the trace when the user is created: the
    request with its answer, the two lines of the response and the line
    of success with the account identifier [v]. *)
Definition user_created_events (req : request) (resp : response) (v : pyval) : list event :=
  [EvHttp req (inr resp);
   EvPrint [FStr "Create user response:"];
   EvPrint [FStr (pretty (status_code resp) +:+ " " +:+ text resp)];
   EvPrint [FStr "User created successfully. UUID: "; FVal v]].

(** An entry of the mushaf listing whose [short_name] is ["hafs"]. *)
Definition is_hafs (m : pyval) : Prop :=
  ∃ d, m = PDict d ∧ d !! "short_name" = Some (PStr "hafs").

(** An entry of the listing with another [short_name], or none. *)
Definition other_mushaf (m : pyval) : Prop :=
  ∃ d, m = PDict d ∧ d !! "short_name" ≠ Some (PStr "hafs").

(** A server for create-takhtit: the user is created with a body that
    has no [uuid], the listing is [mushafs], a takhtit is created as
    [takhtit-1]. *)
Definition takhtit_server (mushafs : list pyval) (req : request) : exn + response :=
  if String.eqb (url req) "http://api/users/" then
    inr (Response 201 "{}" (inr (PDict ∅)))
  else if String.eqb (url req) "http://api/mushafs/" then
    inr (Response 200 "[...]" (inr (PList mushafs)))
  else
    inr (Response 201 "{...}" (inr (PDict {[ "uuid" := PStr "takhtit-1" ]}))).

Definition warsh : pyval :=
  PDict {[ "short_name" := PStr "warsh"; "uuid" := PStr "mushaf-1" ]}.
Definition hafs : pyval :=
  PDict {[ "short_name" := PStr "hafs"; "uuid" := PStr "mushaf-2" ]}.

(** The header that carries the credential [tok]; no header for the empty
    credential. *)
Definition authorization (tok : string) : list (string * string) :=
  match tok with
  | EmptyString => []
  | _ => [("Authorization", "Token " +:+ tok)]
  end.

(** The token an upload is sent under: the cached one, or the empty
    string when the token file is missing. *)
Definition upload_token (file : option string) (tok : string) : Prop :=
  (file = None ∧ tok = EmptyString) ∨ cached file tok.

(** [name] is the last component of [path]: what follows its last slash. *)
Definition file_name_of (path name : string) : Prop :=
  ("/"%char ∉ list_ascii_of_string name) ∧
  ∃ d, path = d +:+ name ∧ (d = EmptyString ∨ ∃ d', d = d' +:+ "/").

(** [req] is the upload of the file [path] to [target] under [headers]:
    a POST with the file as the form part, under its file name, as JSON. *)
Definition is_upload (target : string) (headers : list (string * string))
    (path : string) (req : request) : Prop :=
  ∃ name, file_name_of path name ∧
    req = Request "POST" target headers (FileBody name path "application/json").

(** The endpoint of a single-file import command. *)
Definition import_endpoint (command endpoint : string) : Prop :=
  (command = "import-mushaf" ∧ endpoint = "/mushafs/import/") ∨
  (command = "import-translation" ∧ endpoint = "/translations/import/").

(** A directory entry whose name ends in [.json]. *)
Definition json_name (name : string) : Prop :=
  list_ascii_of_string ".json" `suffix_of` list_ascii_of_string name.

(** A directory entry whose name begins with a dot. *)
Definition hidden_name (name : string) : Prop :=
  head (list_ascii_of_string name) = Some "."%char.

#[global] Instance json_name_dec (name : string) : Decision (json_name name).
Proof. unfold json_name. apply _. Defined.

#[global] Instance hidden_name_dec (name : string) : Decision (hidden_name name).
Proof. unfold hidden_name. apply _. Defined.

(** The entries of a directory listing that the pattern [*.json] names:
    the name ends in [.json] and does not begin with a dot. *)
Definition json_entries (names : list string) : list string :=
  filter (fun name => json_name name ∧ ¬ hidden_name name) names.

(** A string made of slashes. *)
Definition slashes (s : string) : Prop :=
  Forall (fun c => c = "/"%char) (list_ascii_of_string s).

(** A path none of whose characters is special in a [glob] pattern. *)
Definition plain_path (p : string) : Prop :=
  Forall (fun c => c ≠ "*"%char ∧ c ≠ "?"%char ∧ c ≠ "["%char) (list_ascii_of_string p).

(** A name a directory entry can have: not empty and without a slash. *)
Definition entry_name (name : string) : Prop :=
  name ≠ EmptyString ∧ ("/"%char ∉ list_ascii_of_string name).

(** The batch contract as the specification words it: every entry of the
    directory whose name ends in [.json] is attempted. *)
Definition batch_claim (w : World) (disk : files) (prog dir api : string) : Prop :=
  ∀ name, name ∈ listdir w [] dir -> json_name name ->
    (dir +:+ "/" +:+ name) ∈ attempted (events (run_main w disk [prog; "import-translations"; dir; api])).

(** The prompts a run showed, in order. *)
Definition prompts (tr : list event) : list string :=
  omap (fun ev => match ev with
                  | EvInput p _ | EvGetpass p _ => Some p
                  | _ => None
                  end) tr.

(** The prompts [login] has to show for the credentials it was not given. *)
Definition expected_prompts (username password : option string) : list string :=
  (if username is None then ["Username: "] else []) ++
  (if password is None then ["Password: "] else []).

(** A server that answers every request with status 200 and a JSON
    object whose [token] member is [tok]. *)
Definition granting_server (tok : pyval) (req : request) : exn + response :=
  inr (Response 200 "{...}" (inr (PDict {[ "token" := tok ]}))).

(** The world [w] with a terminal at end of input. *)
Definition closed_terminal (w : World) : World := {|
  stdin_input := fun _ _ => inl (Exn OtherException "EOF when reading a line");
  stdin_getpass := fun _ _ => inl (Exn OtherException "EOF when reading a line");
  path_isfile := path_isfile w;
  path_isdir := path_isdir w;
  listdir := listdir w;
  glob_dirs := glob_dirs w;
  file_open := file_open w;
  http := http w;
  random_source := random_source w;
  expanduser := expanduser w
|}.

(** A server for create-takhtit that creates the user as [account-1],
    lists [mushafs] and answers the creation of the takhtit by [reply]. *)
Definition takhtit_server_replying (mushafs : list pyval) (reply : exn + response)
    (req : request) : exn + response :=
  if String.eqb (url req) "http://api/users/" then
    inr (Response 201 "{...}" (inr (PDict {[ "uuid" := PStr "account-1" ]})))
  else if String.eqb (url req) "http://api/mushafs/" then
    inr (Response 200 "[...]" (inr (PList mushafs)))
  else reply.

(** An outcome that ends the process with status 0 or 1. *)
Definition exit01 {A} (o : outcome A) : Prop :=
  exit_status o = 0 ∨ exit_status o = 1.

(** The paths that were opened with success, in order. *)
Definition opened (tr : list event) : list string :=
  omap (fun ev => match ev with EvOpen path None => Some path | _ => None end) tr.

(** A world like [w] in which no path is a directory. *)
Definition without_directories (w : World) : World := {|
  stdin_input := stdin_input w;
  stdin_getpass := stdin_getpass w;
  path_isfile := path_isfile w;
  path_isdir := fun _ _ => false;
  listdir := listdir w;
  glob_dirs := glob_dirs w;
  file_open := file_open w;
  http := http w;
  random_source := random_source w;
  expanduser := expanduser w
|}.

(** A character the password generator may produce. *)
Definition password_char (c : ascii) : bool :=
  is_lower c || is_upper c || is_digit c || is_symbol c.

(** * Properties *)

(** ** Strings and paths *)

Section Strings.

#[local] Arguments String.append !_ _ / : simpl nomatch.
#[local] Arguments Ascii.eqb : simpl never.

Lemma append_nil_r (s : string) : s +:+ EmptyString = s.
Proof. induction s; simpl; congruence. Qed.

Lemma append_assoc (a b c : string) : (a +:+ b) +:+ c = a +:+ (b +:+ c).
Proof. induction a; simpl; congruence. Qed.

Lemma length_append (a b : string) :
  String.length (a +:+ b) = (String.length a + String.length b)%nat.
Proof. induction a; simpl; congruence. Qed.

Lemma chars_append (a b : string) :
  list_ascii_of_string (a +:+ b) = list_ascii_of_string a ++ list_ascii_of_string b.
Proof. induction a; simpl; congruence. Qed.

Lemma blank_append (a b : string) : blank a -> blank b -> blank (a +:+ b).
Proof. unfold blank. rewrite chars_append. apply Forall_app_2. Qed.

Lemma lstrip_blank content : blank content -> lstrip content = EmptyString.
Proof.
  unfold blank. induction content as [|c content IH]; simpl; [done|].
  intros H. apply Forall_cons in H as [-> H]. auto.
Qed.

Lemma strip_blank content : blank content -> strip content = EmptyString.
Proof. intros H. unfold strip. by rewrite lstrip_blank. Qed.

Lemma rstrip_empty s : rstrip s = EmptyString -> blank s.
Proof.
  unfold blank. induction s as [|c s IH]; simpl; [constructor|].
  destruct (rstrip s); [|discriminate].
  destruct (isspace c) eqn:Hc; [|discriminate].
  intros _. constructor; auto.
Qed.

Lemma lstrip_blank_inv s : blank (lstrip s) -> blank s.
Proof.
  unfold blank. induction s as [|c s IH]; simpl; [done|].
  destruct (isspace c) eqn:Hc; [|done].
  intros H. constructor; auto.
Qed.

Lemma strip_empty s : strip s = EmptyString <-> blank s.
Proof.
  split; [|apply strip_blank].
  intros H. by apply lstrip_blank_inv, rstrip_empty.
Qed.

Lemma lstrip_head s c r : lstrip s = String c r -> isspace c = false.
Proof.
  induction s as [|a s IH]; simpl; [done|].
  destruct (isspace a) eqn:Ha; [done|]. by intros [= <- _].
Qed.

Lemma rstrip_head c s : isspace c = false -> ∃ r, rstrip (String c s) = String c r.
Proof. intros Hc. simpl. rewrite Hc. destruct (rstrip s); eauto. Qed.

Lemma rstrip_last s : ∀ r c, rstrip s = r +:+ String c EmptyString -> isspace c = false.
Proof.
  induction s as [|a s IH]; intros r c; simpl.
  { destruct r; discriminate. }
  destruct (rstrip s) as [|b t] eqn:Es.
  - destruct (isspace a) eqn:Ha.
    + destruct r; discriminate.
    + destruct r as [|? [|? ?]]; simpl; intros [=]; congruence.
  - destruct r as [|a' r']; simpl.
    + intros [= _ ?].
    + intros [= _ Ht]. by apply (IH r' c).
Qed.

Lemma rstrip_trimmed s :
  (∀ r c, s = r +:+ String c EmptyString -> isspace c = false) -> rstrip s = s.
Proof.
  induction s as [|a s IH]; intros Hlast; [done|]. simpl.
  rewrite IH.
  - destruct s; [|done]. by rewrite (Hlast EmptyString a).
  - intros r c ->. by apply (Hlast (String a r) c).
Qed.

Lemma strip_trimmed s : trimmed (strip s).
Proof.
  unfold strip. split.
  - intros c r E. destruct (lstrip s) as [|a t] eqn:El; [discriminate|].
    pose proof (lstrip_head _ _ _ El) as Ha.
    destruct (rstrip_head a t Ha) as [r' Er]. rewrite Er in E. congruence.
  - apply rstrip_last.
Qed.

Lemma strip_of_trimmed s : trimmed s -> strip s = s.
Proof.
  intros [Hhead Hlast]. unfold strip.
  assert (lstrip s = s) as ->.
  { destruct s as [|c r]; [done|]. simpl. by rewrite (Hhead c r). }
  by apply rstrip_trimmed.
Qed.

Lemma lstrip_append_blank pre x : blank pre -> lstrip (pre +:+ x) = lstrip x.
Proof.
  unfold blank. induction pre as [|c pre IH]; simpl; [done|].
  intros H. apply Forall_cons in H as [-> H]. auto.
Qed.

Lemma rstrip_blank post : blank post -> rstrip post = EmptyString.
Proof.
  unfold blank. induction post as [|c post IH]; simpl; [done|].
  intros H. apply Forall_cons in H as [-> H]. by rewrite IH.
Qed.

Lemma rstrip_append_blank a post : blank post -> rstrip (a +:+ post) = rstrip a.
Proof.
  intros Hpost. induction a as [|c a IH]; simpl.
  - by apply rstrip_blank.
  - by rewrite IH.
Qed.

(** The trimming of a text is the text between the whitespace. *)
Lemma strip_padded pre v post :
  blank pre -> blank post -> trimmed v -> strip (pre +:+ v +:+ post) = v.
Proof.
  intros Hpre Hpost Hv. unfold strip.
  rewrite lstrip_append_blank by done.
  destruct v as [|c r].
  - simpl. by rewrite lstrip_blank.
  - assert (lstrip (String c r +:+ post) = String c r +:+ post) as ->.
    { simpl. by rewrite (proj1 Hv c r). }
    rewrite rstrip_append_blank by done.
    apply rstrip_trimmed, Hv.
Qed.

(** *** Universal newlines *)

Lemma universal_newlines_no_cr v : no_cr v -> universal_newlines v = v.
Proof.
  unfold no_cr. induction v as [|c v IH]; simpl; [done|].
  intros H. apply not_elem_of_cons in H as [Hc H].
  destruct (Ascii.eqb_spec c "013"); [done|]. by rewrite IH.
Qed.

Lemma universal_newlines_append_no_cr a x :
  no_cr a -> universal_newlines (a +:+ x) = a +:+ universal_newlines x.
Proof.
  unfold no_cr. induction a as [|c a IH]; simpl; [done|].
  intros H. apply not_elem_of_cons in H as [Hc H].
  destruct (Ascii.eqb_spec c "013"); [done|]. by rewrite IH.
Qed.

Lemma universal_newlines_append a x :
  (∀ r, x ≠ String "010" r) ->
  universal_newlines (a +:+ x) = universal_newlines a +:+ universal_newlines x.
Proof.
  intros Hx. induction a as [|c a IH]; [done|].
  cbn [String.append universal_newlines].
  destruct (Ascii.eqb c "013"); [|by rewrite IH].
  destruct a as [|c' a'].
  - simpl. destruct x as [|c' x']; [done|].
    destruct (Ascii.eqb_spec c' "010") as [->|]; [by destruct (Hx x')|done].
  - cbn [String.append]. cbn [String.append] in IH.
    destruct (Ascii.eqb c' "010"); rewrite IH; done.
Qed.

Lemma universal_newlines_blank s : blank s <-> blank (universal_newlines s).
Proof.
  unfold blank. induction s as [|c s IH]; [done|].
  cbn [universal_newlines].
  destruct (Ascii.eqb_spec c "013") as [->|Hc].
  - destruct s as [|c' s'].
    + split; intros _; repeat constructor.
    + destruct (Ascii.eqb_spec c' "010") as [->|Hc'].
      * rewrite <- IH. split; intros H.
        -- by apply Forall_cons in H as [_ H].
        -- by constructor.
      * cbn [list_ascii_of_string]. cbn [list_ascii_of_string] in IH.
        rewrite !Forall_cons. rewrite Forall_cons in IH. rewrite <- IH.
        split; intros (? & ? & ?); done.
  - cbn [list_ascii_of_string]. rewrite !Forall_cons, IH. done.
Qed.

(** What is read from a file that holds [v] between whitespace is [v]. *)
Lemma read_stripped_trimming content v :
  trimming content v -> no_cr v -> read_stripped content = v.
Proof.
  intros (pre & post & -> & Hpre & Hpost & Hv) Hcr. unfold read_stripped.
  destruct v as [|c r].
  - simpl. apply strip_blank. apply (proj1 (universal_newlines_blank _)).
    by apply blank_append.
  - rewrite universal_newlines_append.
    + rewrite universal_newlines_append_no_cr by done.
      apply strip_padded; [by apply (proj1 (universal_newlines_blank _)) .. | done].
    + intros r' E. simpl in E. injection E as -> _.
      pose proof (proj1 Hv _ _ eq_refl) as H. discriminate H.
Qed.

(** A file is read as a falsy credential exactly when it is blank. *)
Lemma read_stripped_empty content :
  String.eqb (read_stripped content) "" = String.eqb (strip content) "".
Proof.
  unfold read_stripped.
  destruct (String.eqb_spec (strip content) "") as [E|E].
  - apply String.eqb_eq. apply (proj2 (strip_empty _)).
    apply (proj1 (universal_newlines_blank _)). by apply (proj1 (strip_empty _)).
  - apply String.eqb_neq. intros E'. apply E. apply (proj2 (strip_empty _)).
    apply (proj2 (universal_newlines_blank _)). by apply (proj1 (strip_empty _)).
Qed.

Lemma truthy_read_stripped (file : option string) :
  truthy (of_opt (read_stripped <$> file)) = truthy (of_opt (strip <$> file)).
Proof. destruct file as [c|]; simpl; [|done]. by rewrite read_stripped_empty. Qed.

(** *** Paths *)

Lemma substring_whole s : String.substring 0 (String.length s) s = s.
Proof. induction s; simpl; congruence. Qed.

Lemma substring_append_r a b :
  String.substring (String.length a) (String.length b) (a +:+ b) = b.
Proof. induction a; simpl; [apply substring_whole | done]. Qed.

Lemma substring_append_l a b :
  String.substring 0 (String.length a) (a +:+ b) = a.
Proof. induction a; simpl; [by destruct b | congruence]. Qed.

Lemma substring_split s : ∀ n,
  (n <= String.length s)%nat ->
  s = String.substring 0 n s +:+ String.substring n (String.length s - n) s.
Proof.
  induction s as [|c s IH]; intros [|n] Hn; simpl in *; try lia; try done.
  - by rewrite substring_whole.
  - f_equal. apply IH. lia.
Qed.

Lemma endswith_spec s suffix :
  endswith s suffix = true <-> ∃ stem, s = stem +:+ suffix.
Proof.
  unfold endswith. split.
  - intros [Hle Heq]%andb_true_iff.
    apply Nat.leb_le in Hle. apply String.eqb_eq in Heq.
    exists (String.substring 0 (String.length s - String.length suffix) s).
    rewrite (substring_split s (String.length s - String.length suffix)) at 1 by lia.
    f_equal. rewrite <- Heq at 3. f_equal. lia.
  - intros [stem ->]. rewrite length_append. apply andb_true_iff. split.
    + apply Nat.leb_le. lia.
    + replace (String.length stem + String.length suffix - String.length suffix)%nat
        with (String.length stem) by lia.
      rewrite substring_append_r. apply String.eqb_refl.
Qed.

Lemma string_of_list_ascii_app (a b : list ascii) :
  string_of_list_ascii (a ++ b) = string_of_list_ascii a +:+ string_of_list_ascii b.
Proof. induction a; simpl; congruence. Qed.

Lemma not_endswith s suffix :
  endswith s suffix = false -> ∀ r, s ≠ r +:+ suffix.
Proof.
  intros E r ->.
  assert (endswith (r +:+ suffix) suffix = true) as E' by (apply endswith_spec; eauto).
  congruence.
Qed.

Lemma json_name_spec name : endswith name ".json" = true <-> json_name name.
Proof.
  unfold json_name. rewrite endswith_spec. split.
  - intros [stem ->]. exists (list_ascii_of_string stem). apply chars_append.
  - intros [k Hk]. exists (string_of_list_ascii k).
    rewrite <- (string_of_list_ascii_of_string name), Hk, string_of_list_ascii_app.
    by rewrite string_of_list_ascii_of_string.
Qed.

Lemma hidden_name_spec name : ishidden name = true <-> hidden_name name.
Proof.
  unfold ishidden, hidden_name. destruct name as [|c r]; cbn [String.prefix].
  - done.
  - destruct (ascii_dec "." c) as [<-|Hc].
    + split; [done | by destruct r].
    + split; [done | intros [= ->]; done].
Qed.

(** The entries [glob] keeps are the visible entries named [*.json]. *)
Lemma filter_json_entries (names : list string) :
  List.filter (fun name => negb (ishidden name) && endswith name ".json") names
  = json_entries names.
Proof.
  unfold json_entries. induction names as [|name names IH]; [done|].
  cbn [List.filter]. rewrite filter_cons, IH.
  destruct (endswith name ".json") eqn:Ej, (ishidden name) eqn:Eh; simpl.
  - rewrite decide_False; [done|]. intros [_ H]. apply H. by apply hidden_name_spec.
  - rewrite decide_True; [done|]. split; [by apply json_name_spec|].
    intros H%hidden_name_spec. congruence.
  - rewrite decide_False; [done|]. intros [H%json_name_spec _]. congruence.
  - rewrite decide_False; [done|]. intros [H%json_name_spec _]. congruence.
Qed.

Lemma no_slash_spec p :
  existsb (Ascii.eqb "/") (list_ascii_of_string p) = false <->
  "/"%char ∉ list_ascii_of_string p.
Proof.
  induction p as [|c p IH]; simpl.
  - split; [intros _ H; inversion H | done].
  - rewrite orb_false_iff, IH, not_elem_of_cons.
    destruct (Ascii.eqb_spec "/" c); split; intros [? ?]; done.
Qed.

Lemma basename_plain p : "/"%char ∉ list_ascii_of_string p -> basename p = p.
Proof.
  destruct p as [|c p]; [done|]. simpl.
  intros [Hc Hp]%not_elem_of_cons.
  destruct (Ascii.eqb_spec c "/"); [done|].
  by rewrite (proj2 (no_slash_spec p) Hp).
Qed.

(** [basename] gives the last component of a path. *)
Lemma basename_spec p : file_name_of p (basename p).
Proof.
  unfold file_name_of. induction p as [|c p (Hname & d & Hp & Hd)].
  { split; [intros H; inversion H | exists EmptyString; auto]. }
  cbn [basename].
  destruct (Ascii.eqb_spec c "/") as [->|Hc].
  - split; [done|]. exists (String "/" d). split; [simpl; congruence|].
    right. destruct Hd as [->|[d' ->]]; [by exists EmptyString | by exists (String "/" d')].
  - destruct (existsb (Ascii.eqb "/") (list_ascii_of_string p)) eqn:Hs.
    + split; [done|]. exists (String c d). split; [simpl; congruence|].
      right. destruct Hd as [->|[d' ->]]; [|by exists (String c d')].
      simpl in Hp. rewrite Hp in Hs.
      by rewrite (proj2 (no_slash_spec _) Hname) in Hs.
    + apply no_slash_spec in Hs. split.
      * by apply not_elem_of_cons.
      * exists EmptyString. auto.
Qed.

Lemma basename_after_slash x b :
  "/"%char ∉ list_ascii_of_string b -> basename (x +:+ String "/" b) = b.
Proof.
  intros Hb. induction x as [|c x IH]; simpl.
  - rewrite ?Ascii.eqb_refl. by apply basename_plain.
  - destruct (Ascii.eqb c "/"); [done|].
    rewrite chars_append, existsb_app. simpl.
    by rewrite ?Ascii.eqb_refl, ?orb_true_r.
Qed.

Lemma slashes_snoc t : slashes t -> String "/" t = t +:+ "/".
Proof.
  unfold slashes. induction t as [|c t IH]; [done|]. simpl.
  intros [-> H]%Forall_cons. by rewrite <- IH.
Qed.

Lemma rstrip_slashes_append a t : slashes t -> rstrip_slashes (a +:+ t) = rstrip_slashes a.
Proof.
  unfold slashes. intros Ht. induction a as [|c a IH]; simpl.
  - induction t as [|c t IH]; [done|]. simpl.
    apply Forall_cons in Ht as [-> Ht]. by rewrite IH.
  - by rewrite IH.
Qed.

Lemma rstrip_slashes_stem s :
  (∀ r, s ≠ r +:+ "/") -> rstrip_slashes s = s.
Proof.
  induction s as [|c s IH]; intros Hs; [done|]. simpl.
  rewrite IH.
  - destruct s; [|done]. destruct (Ascii.eqb_spec c "/") as [->|]; [|done].
    by destruct (Hs EmptyString).
  - intros r ->. by apply (Hs (String c r)).
Qed.

Lemma endswith_slash_false s : (∀ r, s ≠ r +:+ "/") -> endswith s "/" = false.
Proof.
  intros Hs. destruct (endswith s "/") eqn:E; [|done].
  apply endswith_spec in E as [r ->]. by destruct (Hs r).
Qed.

(** The pattern the script builds for a directory, trailing slashes or
    not, splits into the directory and [*.json]. *)
Lemma split_pattern stem trail :
  stem ≠ EmptyString -> (∀ r, stem ≠ r +:+ "/") -> slashes trail ->
  os_path_split (path_join (stem +:+ trail) "*.json") = (stem, "*.json").
Proof.
  intros Hne Hstem Htrail.
  assert (∃ sl, slashes sl ∧
            path_join (stem +:+ trail) "*.json" = (stem +:+ sl) +:+ "/" +:+ "*.json")
    as (sl & Hsl & ->).
  { unfold path_join. cbn [String.prefix]. destruct (ascii_dec "/" "*"); [done|].
    assert (String.eqb (stem +:+ trail) "" = false) as ->.
    { apply String.eqb_neq. by destruct stem. }
    cbn [orb]. destruct trail as [|c t].
    - rewrite append_nil_r, endswith_slash_false by done.
      exists EmptyString. split; [constructor|]. by rewrite append_nil_r.
    - assert (c = "/"%char) as -> by (by apply Forall_cons in Htrail as [-> _]).
      assert (slashes t) as Ht by (by apply Forall_cons in Htrail as [_ ?]).
      rewrite (slashes_snoc t Ht).
      assert (endswith (stem +:+ t +:+ "/") "/" = true) as ->.
      { apply endswith_spec. exists (stem +:+ t). by rewrite append_assoc. }
      exists t. split; [done|]. by rewrite <- !append_assoc. }
  unfold os_path_split.
  change ("/" +:+ "*.json") with (String "/" "*.json").
  rewrite basename_after_slash by (vm_compute; intros H; by repeat (apply elem_of_cons in H as [H|H]; [done|]); inversion H).
  assert ((stem +:+ sl) +:+ String "/" "*.json" = ((stem +:+ sl) +:+ "/") +:+ "*.json") as E
    by (by rewrite !append_assoc).
  rewrite E, length_append.
  replace (String.length ((stem +:+ sl) +:+ "/") + String.length "*.json" - String.length "*.json")%nat
    with (String.length ((stem +:+ sl) +:+ "/")) by lia.
  rewrite substring_append_l.
  rewrite !append_assoc, rstrip_slashes_append, rstrip_slashes_stem; try done.
  - by destruct stem.
  - unfold slashes. rewrite chars_append. apply Forall_app_2; [done | by repeat constructor].
Qed.

Lemma plain_path_no_magic p : plain_path p -> has_magic p = false.
Proof.
  unfold plain_path, has_magic. induction (list_ascii_of_string p) as [|c l IH]; [done|].
  intros [(H1 & H2 & H3) H]%Forall_cons. simpl. rewrite IH by done.
  destruct (Ascii.eqb_spec c "*"), (Ascii.eqb_spec c "?"), (Ascii.eqb_spec c "["); done.
Qed.

Lemma path_join_entry stem name :
  stem ≠ EmptyString -> (∀ r, stem ≠ r +:+ "/") -> entry_name name ->
  path_join stem name = stem +:+ "/" +:+ name.
Proof.
  intros Hne Hstem [Hn Hslash]. unfold path_join.
  assert (String.prefix "/" name = false) as ->.
  { destruct name as [|c r]; [done|]. cbn [String.prefix].
    destruct (ascii_dec "/" c) as [<-|]; [|done].
    destruct Hslash. simpl. apply list_elem_of_here. }
  assert (String.eqb stem "" = false) as -> by (by apply String.eqb_neq).
  by rewrite endswith_slash_false.
Qed.

End Strings.

(** ** The monad *)

Ltac unfold_M :=
  unfold mbind, M_bind, bind, mret, M_ret, ret, raise, sys_exit, try_except,
    print_str, print in *.

Lemma set_draws_id s : set_draws (draws s) s = s.
Proof. by destruct s. Qed.

Lemma rng_only_ret {A} (a : A) (P : A -> Prop) : P a -> rng_only (mret a) P.
Proof. intros H s. exists a, (draws s). by rewrite set_draws_id. Qed.

Lemma rng_only_bind {A B} (m : M A) (f : A -> M B) P Q :
  rng_only m P -> (∀ a, P a -> rng_only (f a) Q) -> rng_only (m ≫= f) Q.
Proof.
  intros Hm Hf s. destruct (Hm s) as (a & d & E & Ha).
  destruct (Hf a Ha (set_draws d s)) as (b & d' & E' & Hb).
  exists b, d'. unfold_M. rewrite E, E'. done.
Qed.

Lemma rng_only_weaken {A} (m : M A) (P Q : A -> Prop) :
  rng_only m P -> (∀ a, P a -> Q a) -> rng_only m Q.
Proof. intros Hm HPQ s. destruct (Hm s) as (a & d & E & Ha). eauto. Qed.

(** ** The password generator *)

Section Password.

Variable w : World.

Lemma randbelow_rng_only n :
  (0 < n)%nat -> rng_only (randbelow w n) (fun j => (j < n)%nat).
Proof.
  intros Hn s. eexists _, _. split; [reflexivity|].
  apply Nat.mod_upper_bound. lia.
Qed.

Lemma getitem_rng_only {A} (l : list A) (i : nat) (a : A) :
  l !! i = Some a -> rng_only (getitem l i) (fun b => b = a).
Proof. intros E. unfold getitem. rewrite E. by apply rng_only_ret. Qed.

Lemma secrets_choice_rng_only (seq : string) :
  seq ≠ EmptyString ->
  rng_only (secrets_choice w seq) (fun c => c ∈ list_ascii_of_string seq).
Proof.
  intros Hne. unfold secrets_choice.
  destruct (list_ascii_of_string seq) as [|c0 l] eqn:El.
  { destruct seq; [done | discriminate]. }
  eapply rng_only_bind.
  - apply randbelow_rng_only. simpl. lia.
  - intros j Hj. simpl in Hj.
    destruct (lookup_lt_is_Some_2 (c0 :: l) j Hj) as [c Hc].
    eapply rng_only_weaken; [by apply getitem_rng_only|].
    intros ? ->. by eapply list_elem_of_lookup_2.
Qed.

Lemma choices_rng_only (n : nat) (seq : string) :
  seq ≠ EmptyString ->
  rng_only (choices w n seq) (fun l => length l = n).
Proof.
  intros Hne. induction n as [|n IH]; simpl.
  - by apply rng_only_ret.
  - eapply rng_only_bind; [by apply secrets_choice_rng_only|].
    intros c _. eapply rng_only_bind; [exact IH|].
    intros cs Hcs. apply rng_only_ret. simpl. by rewrite Hcs.
Qed.

(** Exchanging two positions keeps the length and the elements. *)
Lemma swapped_length (x : list ascii) i j a b :
  length (<[j := a]> (<[i := b]> x)) = length x.
Proof. by rewrite !length_insert. Qed.

Lemma swapped_elem_of (x : list ascii) i j xi xj c :
  x !! i = Some xi -> x !! j = Some xj ->
  c ∈ x -> c ∈ <[j := xi]> (<[i := xj]> x).
Proof.
  intros Hi Hj Hc.
  apply list_elem_of_lookup in Hc as [k Hk].
  pose proof (lookup_lt_Some _ _ _ Hi) as Li.
  pose proof (lookup_lt_Some _ _ _ Hj) as Lj.
  destruct (decide (k = j)) as [->|Hkj].
  - (* the element sat at [j]: it is now at [i], unless [i = j] *)
    destruct (decide (i = j)) as [->|Hij].
    + apply list_elem_of_lookup. exists j.
      rewrite list_lookup_insert_eq by (by rewrite length_insert). congruence.
    + apply list_elem_of_lookup. exists i.
      rewrite list_lookup_insert_ne by done.
      rewrite list_lookup_insert_eq by done. congruence.
  - destruct (decide (k = i)) as [->|Hki].
    + apply list_elem_of_lookup. exists j.
      rewrite list_lookup_insert_eq by (by rewrite length_insert). congruence.
    + apply list_elem_of_lookup. exists k.
      by rewrite !list_lookup_insert_ne by done.
Qed.

Lemma swap_rng_only (x : list ascii) (i j : nat) :
  (i < length x)%nat -> (j < length x)%nat ->
  rng_only (swap x i j)
    (fun x' => length x' = length x ∧ ∀ c, c ∈ x -> c ∈ x').
Proof.
  intros Li Lj.
  destruct (lookup_lt_is_Some_2 x i Li) as [xi Hi].
  destruct (lookup_lt_is_Some_2 x j Lj) as [xj Hj].
  unfold swap.
  eapply rng_only_bind; [by apply getitem_rng_only|]. intros ? ->.
  eapply rng_only_bind; [by apply getitem_rng_only|]. intros ? ->.
  apply rng_only_ret. split.
  - apply swapped_length.
  - intros c. by apply swapped_elem_of.
Qed.

Lemma shuffle_from_rng_only (i : nat) (x : list ascii) :
  (i < length x)%nat ->
  rng_only (shuffle_from w i x)
    (fun x' => length x' = length x ∧ ∀ c, c ∈ x -> c ∈ x').
Proof.
  revert x. induction i as [|i IH]; intros x Li; simpl.
  - by apply rng_only_ret.
  - eapply rng_only_bind; [apply randbelow_rng_only; lia|].
    intros j Hj. cbv beta in Hj.
    eapply rng_only_bind; [apply swap_rng_only; lia|].
    intros x' [Lx' Hx']. eapply rng_only_weaken; [apply IH; lia|].
    intros x'' [Lx'' Hx'']. split; [congruence | auto].
Qed.

Lemma shuffle_rng_only (x : list ascii) :
  x ≠ [] ->
  rng_only (shuffle w x)
    (fun x' => length x' = length x ∧ ∀ c, c ∈ x -> c ∈ x').
Proof.
  intros Hx. apply shuffle_from_rng_only.
  destruct x; [done | simpl; lia].
Qed.

Lemma lowercase_is_lower c :
  c ∈ list_ascii_of_string ascii_lowercase -> is_lower c = true.
Proof. revert c. apply Forall_forall. repeat (constructor; [reflexivity|]). constructor. Qed.

Lemma uppercase_is_upper c :
  c ∈ list_ascii_of_string ascii_uppercase -> is_upper c = true.
Proof. revert c. apply Forall_forall. repeat (constructor; [reflexivity|]). constructor. Qed.

Lemma digits_is_digit c :
  c ∈ list_ascii_of_string digits -> is_digit c = true.
Proof. revert c. apply Forall_forall. repeat (constructor; [reflexivity|]). constructor. Qed.

Lemma symbols_is_symbol c :
  c ∈ list_ascii_of_string symbols -> is_symbol c = true.
Proof. intros H. unfold is_symbol. by apply bool_decide_eq_true. Qed.

Lemma length_string_of_list_ascii (l : list ascii) :
  String.length (string_of_list_ascii l) = length l.
Proof. induction l; simpl; congruence. Qed.

Lemma generate_strong_password_rng_only (n : Z) :
  rng_only (generate_strong_password w n) (password_policy n).
Proof.
  unfold generate_strong_password.
  eapply rng_only_bind; [by apply secrets_choice_rng_only|]. intros c1 H1.
  eapply rng_only_bind; [by apply secrets_choice_rng_only|]. intros c2 H2.
  eapply rng_only_bind; [by apply secrets_choice_rng_only|]. intros c3 H3.
  eapply rng_only_bind; [by apply secrets_choice_rng_only|]. intros c4 H4.
  eapply rng_only_bind; [by apply choices_rng_only|]. intros more Hmore.
  eapply rng_only_bind; [by apply shuffle_rng_only|]. intros x [Lx Hx].
  apply rng_only_ret. unfold password_policy.
  rewrite length_string_of_list_ascii, Lx. simpl length. rewrite Hmore.
  unfold contains. rewrite list_ascii_of_string_of_list_ascii.
  change (length [c1; c2; c3; c4]) with 4%nat.
  split_and!.
  - intros Hn. destruct (Z.ltb_spec n 8); lia.
  - intros Hn. destruct (Z.ltb_spec n 8); lia.
  - exists c1. split; [apply Hx; simpl; repeat constructor | by apply lowercase_is_lower].
  - exists c2. split; [apply Hx; simpl; repeat constructor | by apply uppercase_is_upper].
  - exists c3. split; [apply Hx; simpl; repeat constructor | by apply digits_is_digit].
  - exists c4. split; [apply Hx; simpl; repeat constructor | by apply symbols_is_symbol].
Qed.

(** C3. Whatever the random source yields, [generate_strong_password]
    returns a password (it neither raises nor exits, and touches nothing
    but the random source) whose length is the requested one when that is
    at least 8 and is 8 otherwise, and which contains a lowercase letter,
    an uppercase letter, a digit and a symbol of "-_@#$%". *)
Theorem generate_strong_password_policy (n : Z) (s : state) :
  ∃ pw d,
    generate_strong_password w n s = (Normal pw, set_draws d s) ∧
    (8 <= n -> Z.of_nat (String.length pw) = n) ∧
    (n < 8 -> String.length pw = 8%nat) ∧
    contains is_lower pw ∧ contains is_upper pw ∧
    contains is_digit pw ∧ contains is_symbol pw.
Proof. exact (generate_strong_password_rng_only n s). Qed.

End Password.

(** ** Symbolic execution of the script *)

#[local] Arguments pretty : simpl never.
#[local] Arguments String.append : simpl never.
#[local] Arguments read_stripped : simpl never.
#[local] Arguments glob : simpl never.

Ltac unfold_io :=
  unfold input, getpass, requests_post, requests_get, requests_send, open_rb,
    response_json, py_get, write_token_file, save_takhtit_uuid,
    load_token, load_takhtit_uuid, os_path_isfile, os_path_isdir,
    print_status_text, getitem in *.

(** Bring a trace into the form [trace s ++ [ev1; ...; evn]]. *)
Ltac norm_trace :=
  unfold log, set_fs, set_draws in *; simpl in *;
  rewrite <- ?(assoc_L (++)) in *; simpl in *;
  rewrite ?drop_app_length in *.

(** Follow every branch of a straight-line computation: case on the
    innermost scrutinee that blocks the evaluation, and evaluate. *)
Ltac exec_step :=
  match goal with
  | |- context [match ?x with _ => _ end] =>
      lazymatch x with
      | context [match _ with _ => _ end] => fail
      | _ => destruct x eqn:?
      end
  end.
Ltac exec := repeat (exec_step; simpl).

(** Name the result of the run of [m] from [s] and execute [m]: every
    branch is left with the result as an equation to introduce. *)
Ltac run_of m s :=
  let o := fresh "o" in
  let s' := fresh "s'" in
  let E := fresh "E" in
  destruct (m s) as [o s'] eqn:E; simpl; revert E.

Ltac got_result :=
  let E := fresh "E" in
  intros E; injection E as <- <-; norm_trace.

(** Split a membership in an explicit list into its cases. *)
Ltac elem_cases H :=
  repeat first
    [ apply elem_of_nil in H; destruct H
    | apply elem_of_cons in H as [H|H] ];
  try discriminate H.

(** Listing a directory changes nothing. *)
Lemma glob_in_dirs_state w dirs s : ∃ paths, glob_in_dirs w dirs s = (Normal paths, s).
Proof.
  induction dirs as [|d dirs [paths IH]]; [by eexists|].
  cbn [glob_in_dirs]. unfold glob1_json. unfold_M. rewrite IH. by eexists.
Qed.

Lemma glob_state w pathname s : ∃ paths, glob w pathname s = (Normal paths, s).
Proof.
  unfold glob. destruct (os_path_split pathname) as [dirname ?].
  destruct (String.eqb dirname ""); [by eexists|].
  unfold_M. destruct (has_magic dirname); apply glob_in_dirs_state.
Qed.

(** The listing of a directory whose path is plain: the visible entries
    named [*.json], each under the directory. *)
Lemma glob_directory w stem trail s :
  stem ≠ EmptyString -> (∀ r, stem ≠ r +:+ "/") -> slashes trail ->
  plain_path (stem +:+ trail) ->
  Forall entry_name (listdir w (trace s) stem) ->
  glob w (path_join (stem +:+ trail) "*.json") s =
    (Normal ((fun name => stem +:+ "/" +:+ name) <$> json_entries (listdir w (trace s) stem)), s).
Proof.
  intros Hne Hstem Htrail Hplain Hnames. unfold glob.
  rewrite split_pattern by done.
  assert (String.eqb stem "" = false) as -> by (by apply String.eqb_neq).
  assert (has_magic stem = false) as ->.
  { apply plain_path_no_magic. unfold plain_path in *.
    rewrite chars_append in Hplain. by apply Forall_app in Hplain as [? _]. }
  unfold_M. cbn [glob_in_dirs]. unfold glob1_json. unfold_M.
  assert (String.eqb stem "" = false) as -> by (by apply String.eqb_neq).
  rewrite filter_json_entries, app_nil_r. do 2 f_equal.
  apply Forall_fmap_ext, Forall_forall. intros name Hname.
  apply path_join_entry; try done.
  unfold json_entries in Hname. apply list_elem_of_filter in Hname as [_ Hname].
  by eapply Forall_forall in Hnames.
Qed.

Lemma status_failed_test status :
  bool_decide (¬ success_status status) = not_in_200_201 status.
Proof.
  unfold not_in_200_201, success_status.
  destruct (Z.eqb_spec status 200), (Z.eqb_spec status 201); simpl;
    try (apply bool_decide_eq_false; tauto).
  apply bool_decide_eq_true. tauto.
Qed.

Lemma status_succeeded_test status :
  bool_decide (success_status status) = negb (not_in_200_201 status).
Proof.
  unfold not_in_200_201, success_status.
  destruct (Z.eqb_spec status 200), (Z.eqb_spec status 201); simpl;
    try (apply bool_decide_eq_true; tauto).
  apply bool_decide_eq_false. tauto.
Qed.

Lemma has_field_false d key :
  has_field (PDict d) key = false -> d !! key = None.
Proof.
  simpl. intros H%bool_decide_eq_false. by apply eq_None_not_Some.
Qed.

(** ** Login *)

(** A login that is answered by a status other than 200 prints its
    failure and returns: nothing is written, nothing is raised and
    [sys.exit] is not called. *)
Lemma login_rejected_returns (w : World) api ou op s resp :
  received (emitted (login w api ou op) s) "POST" (api +:+ "/auth/login/") resp ->
  status_code resp ≠ 200 ->
  (login w api ou op s).1 = Normal tt ∧
  fs (login w api ou op s).2 = fs s ∧
  last (emitted (login w api ou op) s) =
    Some (EvPrint [FStr ("Login failed: " +:+ pretty (status_code resp) +:+ " " +:+ text resp)]).
Proof.
  intros (h & b & Hin) Hst. revert Hin. unfold emitted.
  run_of (login w api ou op) s.
  unfold login. unfold_io. unfold_M.
  destruct ou as [u|], op as [p|]; simpl; exec; got_result;
    intros Hin; elem_cases Hin; injection Hin as -> -> ->;
    try done;
    match goal with H : (_ =? 200) = true |- _ => apply Z.eqb_eq in H; done end.
Qed.

(** A transport error ends the process with status 1: the handler of
    [login] is the one place of the function that calls [sys.exit]. *)
Lemma login_transport_error_exits (w : World) api ou op s req e :
  EvHttp req (inl e) ∈ emitted (login w api ou op) s ->
  (login w api ou op s).1 = Exited 1 ∧
  fs (login w api ou op s).2 = fs s ∧
  last (emitted (login w api ou op) s) =
    Some (EvPrint [FStr ("Login error: " +:+ exn_msg e)]).
Proof.
  unfold emitted.
  run_of (login w api ou op) s.
  unfold login. unfold_io. unfold_M.
  destruct ou as [u|], op as [p|]; simpl; exec; got_result;
    intros Hin; elem_cases Hin; injection Hin as -> ->; done.
Qed.

(** C1. The failing run: the server rejects the credentials with status
    401 (or accepts them with a body that has no token); the script
    prints the failure and the process ends with status 0, where the
    contract asks for a status other than 0. *)
Theorem login_failure_exit_status :
  run_main (sample_world rejecting_server []) no_disk
    ["script.py"; "login"; "http://api"; "reader"; "secret"]
  = Result 0 no_disk
      [EvHttp (Request "POST" "http://api/auth/login/" []
                 (JsonBody (PDict {[ "username" := PStr "reader";
                                     "password" := PStr "secret" ]})))
         (inr (Response 401 "Invalid credentials"
                 (inl (Exn RequestException "Expecting value"))));
       EvPrint [FStr "Login failed: 401 Invalid credentials"]] ∧
  exit_code (run_main (sample_world tokenless_server []) no_disk
               ["script.py"; "login"; "http://api"; "reader"; "secret"]) = 0 ∧
  ¬ login_claim (sample_world rejecting_server []) no_disk
      ["script.py"; "login"; "http://api"; "reader"; "secret"].
Proof.
  split_and!.
  - vm_compute. reflexivity.
  - vm_compute. reflexivity.
  - intros H. apply (H (Response 401 "Invalid credentials"
                          (inl (Exn RequestException "Expecting value")))).
    + eexists _, _. vm_compute. apply list_elem_of_here.
    + done.
    + vm_compute. reflexivity.
Qed.

(** C4. When the server answers a login with status 200 and a JSON body
    that has no [token] member, the credential files after the call are
    the files before the call: a token file that existed keeps its
    contents and one that did not exist is not created. *)
Theorem login_without_token_persists_nothing (w : World) api ou op s resp j :
  received (emitted (login w api ou op) s) "POST" (api +:+ "/auth/login/") resp ->
  status_code resp = 200 ->
  json resp = inr j ->
  has_field j "token" = false ->
  fs (login w api ou op s).2 = fs s.
Proof.
  intros (h & b & Hin) Hst Hj Hf. revert Hin. unfold emitted.
  run_of (login w api ou op) s.
  unfold login. unfold_io. unfold_M.
  destruct ou as [u|], op as [p|]; simpl; exec; got_result;
    intros Hin; elem_cases Hin; injection Hin as -> -> ->;
    try done;
    match goal with
    | H : json _ = inr (PDict _) |- _ =>
        rewrite H in Hj; injection Hj as <-; apply has_field_false in Hf;
        rewrite Hf in *; discriminate
    end.
Qed.

(** The same at a concrete input: a token from an earlier login stays
    in place. *)
Lemma login_without_token_persists_nothing_witness :
  fs (login (sample_world tokenless_server []) "http://api" (Some "reader") (Some "secret")
        (State (Files (Some "earlier-token") None) [] 0)).2
  = Files (Some "earlier-token") None.
Proof.
  apply (login_without_token_persists_nothing
           (sample_world tokenless_server []) "http://api" (Some "reader") (Some "secret")
           (State (Files (Some "earlier-token") None) [] 0)
           (Response 200 "{}" (inr (PDict ∅))) (PDict ∅)).
  - eexists _, _. vm_compute. apply list_elem_of_here.
  - reflexivity.
  - reflexivity.
  - reflexivity.
Defined.

(** ** Credential store *)

Lemma read_stripped_blank content : blank content -> read_stripped content = EmptyString.
Proof.
  intros H. unfold read_stripped.
  apply strip_blank. by apply (proj1 (universal_newlines_blank _)).
Qed.

(** C7. A string written as the token is loaded back trimmed, and so is
    a string written as the takhtit identifier, when what is left of it
    after trimming holds no carriage return; a credential whose file does
    not exist is loaded as the absent value. The token is written by
    [login] alone: after a login that was answered by status 200 and a
    non-empty string [t] as the [token] member, the token loads as [t]
    trimmed. *)
Theorem credential_round_trip (w : World) (t v : string) (s : state) :
  trimming t v -> no_cr v ->
  (load_token (write_token_file (PStr t) s).2).1 = Normal (Some v) ∧
  (load_takhtit_uuid (save_takhtit_uuid (PStr t) s).2).1 = Normal (Some v) ∧
  (load_token (without_token_file s)).1 = Normal None ∧
  (load_takhtit_uuid (without_takhtit_uuid_file s)).1 = Normal None ∧
  (∀ api ou op resp d,
     received (emitted (login w api ou op) s) "POST" (api +:+ "/auth/login/") resp ->
     status_code resp = 200 ->
     json resp = inr (PDict d) ->
     d !! "token" = Some (PStr t) ->
     t ≠ EmptyString ->
     (load_token (login w api ou op s).2).1 = Normal (Some v)).
Proof.
  intros Htrim Hcr.
  pose proof (read_stripped_trimming t v Htrim Hcr) as Hread.
  split_and!; try reflexivity.
  - unfold load_token. simpl. by rewrite Hread.
  - unfold load_takhtit_uuid. simpl. by rewrite Hread.
  - intros api ou op resp d (h & b & Hin) Hst Hj Hd Ht. revert Hin. unfold emitted.
    run_of (login w api ou op) s.
    unfold login. unfold_io. unfold_M.
    destruct ou as [u|], op as [p|]; simpl; exec; got_result;
      intros Hin; elem_cases Hin; injection Hin as -> -> ->;
      try congruence;
      match goal with
      | H : json _ = inr _ |- _ => rewrite H in Hj; try injection Hj as ->
      end;
      rewrite ?Hd in *; simpl in *; try congruence.
    all: match goal with
         | H : negb (String.eqb _ _) = false |- _ =>
             apply negb_false_iff, String.eqb_eq in H; congruence
         | H : (status_code _ =? 200) = false |- _ =>
             rewrite Hst in H; discriminate
         | H : PStr _ = PStr _ |- _ => injection H as ->; by rewrite Hread
         end.
Qed.

Lemma text_trimmed (a b : ascii) (middle : string) :
  isspace a = false -> isspace b = false ->
  trimmed (String a (middle +:+ String b EmptyString)).
Proof.
  intros Ha Hb. split.
  - by intros ? ? [= <- _].
  - intros r c E.
    change (String a (middle +:+ String b EmptyString))
      with ((String a middle) +:+ String b EmptyString) in E.
    apply (f_equal list_ascii_of_string) in E. rewrite !chars_append in E.
    apply app_inj_tail in E as [_ [= <-]]. done.
Qed.

Lemma text_is_trimmed (a b : ascii) (middle : string) :
  isspace a = false -> isspace b = false ->
  trimming (String a (middle +:+ String b EmptyString))
           (String a (middle +:+ String b EmptyString)).
Proof.
  intros Ha Hb. exists EmptyString, EmptyString. split_and!.
  - simpl. by rewrite append_nil_r.
  - constructor.
  - constructor.
  - by apply text_trimmed.
Qed.

Lemma credential_round_trip_witness :
  (load_token (write_token_file (PStr ("  abc123" +:+ String "013" (String "010" "")))
                 (State no_disk [] 0)).2).1 = Normal (Some "abc123").
Proof.
  refine (proj1 (credential_round_trip (sample_world rejecting_server [])
                   ("  abc123" +:+ String "013" (String "010" "")) "abc123"
                   (State no_disk [] 0) _ _)).
  - exists "  ", (String "013" (String "010" "")). split_and!.
    + reflexivity.
    + repeat constructor.
    + repeat constructor.
    + apply (text_trimmed "a" "3" "bc12"); reflexivity.
  - unfold no_cr. simpl. intros H. elem_cases H.
Defined.

(** C7, as worded, fails on a string with a carriage return inside: it
    is read back as a line feed. *)
Lemma round_trip_claim_fails : ¬ round_trip_claim (State no_disk [] 0).
Proof.
  intros H.
  destruct (H (String "a" (String "013" "b")) (String "a" (String "013" "b"))) as [Ht _].
  - apply (text_is_trimmed "a" "b" (String "013" "")); reflexivity.
  - vm_compute in Ht. discriminate Ht.
Qed.

(** ** Operations that need a credential *)

(** C10. A token file that is empty or holds whitespace only is treated
    like a file that does not exist: the loaded token is the empty string,
    which is as false as the absent value, and [create_user],
    [create_takhtit] and [import_takhtit] each print the not-logged-in
    message and exit with status 1 without any other effect, in the state
    with the blank file as in the state without the file. *)
Theorem blank_token_is_not_logged_in (w : World) (api file_path type_name content : string) (s : state) :
  token_file (fs s) = Some content ->
  blank content ->
  (load_token s).1 = Normal (Some EmptyString) ∧
  truthy (of_opt (Some EmptyString)) = false ∧
  truthy (of_opt None) = false ∧
  (∀ s', s' = s ∨ s' = without_token_file s ->
     create_user w api s' = (Exited 1, log (EvPrint [FStr not_logged_in]) s') ∧
     create_takhtit w api s' = (Exited 1, log (EvPrint [FStr not_logged_in]) s') ∧
     import_takhtit w file_path type_name api s' =
       (Exited 1, log (EvPrint [FStr not_logged_in]) s')).
Proof.
  intros Hfile Hblank. split_and!; try reflexivity.
  - unfold load_token. simpl. rewrite Hfile. simpl. by rewrite (read_stripped_blank _ Hblank).
  - intros s' [->| ->];
      unfold create_user, create_takhtit, import_takhtit, load_token; unfold_M; simpl;
      rewrite ?Hfile; simpl; rewrite ?(read_stripped_blank _ Hblank); done.
Qed.

Lemma blank_token_is_not_logged_in_witness :
  create_user (sample_world rejecting_server []) "http://api"
    (State (Files (Some (String "010" " ")) None) [] 0)
  = (Exited 1, State (Files (Some (String "010" " ")) None) [EvPrint [FStr not_logged_in]] 0).
Proof.
  pose proof (blank_token_is_not_logged_in (sample_world rejecting_server [])
                "http://api" "layout.json" "page" (String "010" " ")
                (State (Files (Some (String "010" " ")) None) [] 0)
                eq_refl) as H.
  destruct H as (_ & _ & _ & H).
  - repeat constructor.
  - destruct (H _ (or_introl eq_refl)) as (Hu & _). exact Hu.
Defined.

(** C6. The command import-takhtit, run while no takhtit identifier is
    cached (the file does not exist, or is blank), ends with status 1
    after printing one message and nothing else: no request is sent and
    the files are untouched. With a token cached the message asks for a
    takhtit, without one it asks for a login. *)
Theorem import_takhtit_requires_uuid (w : World) (disk : files) (prog file_path type_name api : string) :
  truthy (of_opt (strip <$> takhtit_uuid_file disk)) = false ->
  let r := run_main w disk [prog; "import-takhtit"; file_path; type_name; api] in
  r = Result 1 disk
        [EvPrint [FStr (if truthy (of_opt (strip <$> token_file disk))
                        then no_takhtit_uuid else not_logged_in)]] ∧
  network_calls (events r) = [].
Proof.
  intros H r.
  assert (run_main w disk [prog; "import-takhtit"; file_path; type_name; api] =
          Result 1 disk
            [EvPrint [FStr (if truthy (of_opt (strip <$> token_file disk))
                            then no_takhtit_uuid else not_logged_in)]]) as E.
  { unfold run_main, main, import_takhtit, load_token, load_takhtit_uuid.
    unfold_M. simpl. rewrite truthy_read_stripped.
    destruct (truthy (of_opt (strip <$> token_file disk))); simpl; [|done].
    by rewrite truthy_read_stripped, H. }
  subst r. rewrite E. done.
Qed.

Lemma import_takhtit_requires_uuid_witness :
  run_main (sample_world rejecting_server []) (Files (Some "token") None)
    ["script.py"; "import-takhtit"; "layout.json"; "page"; "http://api"]
  = Result 1 (Files (Some "token") None) [EvPrint [FStr no_takhtit_uuid]].
Proof.
  exact (proj1 (import_takhtit_requires_uuid (sample_world rejecting_server [])
                  (Files (Some "token") None)
                  "script.py" "layout.json" "page" "http://api" eq_refl)).
Defined.

(** ** Command dispatcher *)

Lemma list_index_flag (args : list string) :
  flag ∈ args ->
  ∃ i, list_find (fun a => a = flag) args = Some (i, flag) ∧ (i < length args)%nat.
Proof.
  intros H.
  destruct (list_find_elem_of (fun a => a = flag) args flag H eq_refl) as [[i x] Hix].
  pose proof Hix as Hix'.
  apply list_find_Some in Hix' as (Hl & -> & _).
  exists i. split; [done|]. by eapply lookup_lt_Some.
Qed.

Lemma without_flag_length (args : list string) i :
  (i < length args)%nat ->
  length (take i args ++ drop (i + 1) args) = (length args - 1)%nat.
Proof. intros H. rewrite length_app, length_take, length_drop. lia. Qed.

Lemma login_command_rejects w args s :
  (if bool_decide (flag ∈ args) then bool_decide (length args = 6%nat)
   else bool_decide (length args = 3%nat) || bool_decide (length args = 5%nat)) = false ->
  login_command w args s =
    (Exited 1,
     log (EvPrint [FStr (if bool_decide (flag ∈ args) then usage_login_flag else usage_login)]) s).
Proof.
  unfold login_command. case_bool_decide as Hflag.
  - intros Hn%bool_decide_eq_false.
    destruct (list_index_flag args Hflag) as (i & Hi & Li).
    unfold list_index. rewrite Hi. unfold_M.
    rewrite bool_decide_eq_false_2; [done|].
    rewrite without_flag_length by done. lia.
  - intros [H3%bool_decide_eq_false H5%bool_decide_eq_false]%orb_false_iff.
    rewrite !bool_decide_eq_false_2 by done. done.
Qed.

Lemma import_one_rejects w usage send args s :
  bool_decide (length args = 4%nat) = false ->
  import_one w usage send args s = (Exited 1, log (EvPrint [FStr usage]) s).
Proof. intros H. unfold import_one. unfold_M. by rewrite H. Qed.

Lemma import_translations_rejects w args s :
  bool_decide (length args = 4%nat) = false ->
  import_translations w args s =
    (Exited 1, log (EvPrint [FStr usage_import_translations]) s).
Proof. intros H. unfold import_translations. unfold_M. by rewrite H. Qed.

(** The run of a vector that is not admitted, in full. *)
Lemma main_rejects w argv disk :
  accepted argv = false ->
  run_main w disk argv = Result 1 disk (printed (rejection argv)).
Proof.
  unfold accepted, rejection.
  destruct argv as [|prog [|command rest]]; [done | done |].
  change ((prog :: command :: rest) !! 1%nat) with (Some command).
  cbv iota. intros Hacc.
  unfold run_main, main, getitem. unfold_M.
  rewrite bool_decide_eq_false_2 by (simpl; lia).
  change ((prog :: command :: rest) !! 1%nat) with (Some command).
  cbv iota beta zeta.
  repeat (destruct (String.eqb command _)); cbv iota beta zeta.
  - by rewrite login_command_rejects.
  - by rewrite import_one_rejects.
  - by rewrite import_translations_rejects.
  - by rewrite import_one_rejects.
  - by rewrite Hacc.
  - by rewrite Hacc.
  - done.
Qed.

Lemma network_calls_printed lines : network_calls (printed lines) = [].
Proof. induction lines; simpl; auto. Qed.

Lemma usage_printed_head line tr :
  String.prefix "Usage:" line = true -> usage_printed (EvPrint [FStr line] :: tr).
Proof. intros H. exists line. split; [apply list_elem_of_here | done]. Qed.

(** C8, as amended. An argument vector that names no command, an unknown
    command, or a known command with the wrong number of arguments ends
    the process with status 1 after printing and nothing else: no request
    is sent and the files are untouched. When the command is missing or
    known the print is a usage message; for an unknown command it is the
    line [Unknown command: <command>] and no usage message. *)
Theorem dispatcher_rejects (w : World) (disk : files) (argv : list string) :
  accepted argv = false ->
  let r := run_main w disk argv in
  r = Result 1 disk (printed (rejection argv)) ∧
  network_calls (events r) = [] ∧
  (argv !! 1%nat = None ∨ (∃ c, argv !! 1%nat = Some c ∧ c ∈ known_commands) ->
   usage_printed (events r)) ∧
  (∀ c, argv !! 1%nat = Some c -> c ∉ known_commands ->
   events r = [EvPrint [FStr ("Unknown command: " +:+ c)]]).
Proof.
  intros Hacc r. subst r. rewrite (main_rejects _ _ _ Hacc). simpl.
  split_and!; [done | apply network_calls_printed | |].
  - unfold rejection. intros [-> | (c & -> & Hc)]; [by apply usage_printed_head|].
    unfold printed. unfold known_commands in Hc.
    repeat (apply elem_of_cons in Hc as [->|Hc];
            [simpl; try case_bool_decide; by apply usage_printed_head|]).
    by apply elem_of_nil in Hc.
  - unfold rejection. intros c -> Hc.
    repeat match goal with
           | |- context [String.eqb c ?k] =>
               destruct (String.eqb_spec c k) as [->|_];
               [exfalso; apply Hc; unfold known_commands;
                rewrite !elem_of_cons; tauto|]
           end.
    done.
Qed.

Lemma dispatcher_rejects_witness :
  run_main (sample_world rejecting_server []) no_disk
    ["script.py"; "import-takhtit"; "layout.json"]
  = Result 1 no_disk [EvPrint [FStr usage_import_takhtit]].
Proof.
  exact (proj1 (dispatcher_rejects (sample_world rejecting_server []) no_disk
                  ["script.py"; "import-takhtit"; "layout.json"] eq_refl)).
Defined.

(** C8, as worded, fails on an unknown command: the one line printed is
    not a usage message. *)
Lemma dispatcher_claim_fails :
  ¬ dispatcher_claim (sample_world rejecting_server []) no_disk
      ["script.py"; "frobnicate"].
Proof.
  intros H. destruct (H eq_refl) as (_ & _ & line & Hin & Hp).
  vm_compute in Hin. elem_cases Hin. injection Hin as ->.
  vm_compute in Hp. discriminate.
Qed.

(** ** Batch import *)

Lemma failures_app tr1 tr2 : failures (tr1 ++ tr2) = (failures tr1 + failures tr2)%nat.
Proof. unfold failures. by rewrite List.filter_app, length_app. Qed.

Lemma successes_app tr1 tr2 : successes (tr1 ++ tr2) = (successes tr1 + successes tr2)%nat.
Proof. unfold successes. by rewrite List.filter_app, length_app. Qed.

Lemma attempted_app tr1 tr2 : attempted (tr1 ++ tr2) = attempted tr1 ++ attempted tr2.
Proof. apply omap_app. Qed.

Lemma network_calls_app tr1 tr2 :
  network_calls (tr1 ++ tr2) = network_calls tr1 ++ network_calls tr2.
Proof. apply omap_app. Qed.

(** One turn of the loop: it returns normally with one more success or
    one more failure, having attempted the file once. *)
Lemma import_translations_step_run w api token sc fc file_path s :
  ∃ sc' fc' evs,
    import_translations_step w api token (sc, fc) file_path s =
      (Normal (sc', fc'), State (fs s) (trace s ++ evs) (draws s)) ∧
    attempted evs = [file_path] ∧
    sc' = (sc + successes evs)%nat ∧ fc' = (fc + failures evs)%nat ∧
    (successes evs + failures evs = 1)%nat.
Proof.
  run_of (import_translations_step w api token (sc, fc) file_path) s.
  unfold import_translations_step, print_response, send_translation_to_api.
  unfold_io. unfold_M. simpl. exec. 
  all: got_result.
  all: eexists _, _, _; split; [reflexivity|].
  all: unfold successes, failures; simpl.
  all: rewrite ?status_failed_test, ?status_succeeded_test.
  all: repeat match goal with
         | H : negb _ = true |- _ => apply negb_true_iff in H; rewrite !H
         | H : negb _ = false |- _ => apply negb_false_iff in H; rewrite !H
         end; simpl.
  all: split_and!; try done; try lia.
Qed.

(** The loop: every file of the listing is attempted once, in order, and
    told apart as a success or a failure. *)
Lemma import_translations_loop_run w api token json_files : ∀ sc fc s,
  ∃ sc' fc' evs,
    import_translations_loop w api token (sc, fc) json_files s =
      (Normal (sc', fc'), State (fs s) (trace s ++ evs) (draws s)) ∧
    attempted evs = json_files ∧
    sc' = (sc + successes evs)%nat ∧ fc' = (fc + failures evs)%nat ∧
    (successes evs + failures evs = length json_files)%nat.
Proof.
  induction json_files as [|file_path rest IH]; intros sc fc s.
  - exists sc, fc, []. simpl. rewrite app_nil_r. destruct s. split_and!; try done; lia.
  - destruct (import_translations_step_run w api token sc fc file_path s)
      as (sc1 & fc1 & evs1 & E1 & A1 & S1 & F1 & T1).
    destruct (IH sc1 fc1 (State (fs s) (trace s ++ evs1) (draws s)))
      as (sc2 & fc2 & evs2 & E2 & A2 & S2 & F2 & T2).
    exists sc2, fc2, (evs1 ++ evs2).
    cbn [import_translations_loop]. unfold_M. rewrite E1, E2.
    rewrite attempted_app, successes_app, failures_app, A1, A2, (assoc_L (++)).
    split_and!; try done; simpl; lia.
Qed.

Lemma failures_snoc_print tr line : failures (tr ++ [EvPrint line]) = failures tr.
Proof. rewrite failures_app. unfold failures at 2. simpl. lia. Qed.

Lemma successes_snoc_print tr line : successes (tr ++ [EvPrint line]) = successes tr.
Proof. rewrite successes_app. unfold successes at 2. simpl. lia. Qed.

Lemma attempted_snoc_print tr line : attempted (tr ++ [EvPrint line]) = attempted tr.
Proof. rewrite attempted_app. simpl. apply app_nil_r. Qed.

(** C2. A run of import-translations on an existing directory whose
    path holds no pattern character, trailing slashes or not. The files
    of the batch are the entries of the directory whose name ends in
    [.json] and does not begin with a dot. When there is none the process
    ends with status 1 and neither opens a file nor sends a request.
    Otherwise the files it attempts are the files of the batch, each once
    and in the order of the listing, whatever the outcome of the earlier
    ones; each attempt is counted as a success (an answer of status 200
    or 201) or as a failure (the file cannot be opened, the transport
    raises, or the status is another one) and the summary line reports
    both counts; the exit status is 1 when a file failed and 0 when none
    did. The credential files are left as they were. *)
Theorem import_translations_batch (w : World) (disk : files)
    (prog stem trail api : string) :
  stem ≠ EmptyString -> (∀ r, stem ≠ r +:+ "/") -> slashes trail ->
  plain_path (stem +:+ trail) ->
  path_isdir w [] (stem +:+ trail) = true ->
  Forall entry_name (listdir w [] stem) ->
  let r := run_main w disk [prog; "import-translations"; stem +:+ trail; api] in
  let json_files := json_entries (listdir w [] stem) in
  (json_files = [] ->
     exit_code r = 1 ∧ attempted (events r) = [] ∧ network_calls (events r) = []) ∧
  (json_files ≠ [] ->
     attempted (events r) = (fun name => stem +:+ "/" +:+ name) <$> json_files ∧
     (successes (events r) + failures (events r) = length json_files)%nat ∧
     last (events r) =
       Some (EvPrint [FStr (String "010" "Import Summary: "
                              +:+ pretty (successes (events r)) +:+ " successful, "
                              +:+ pretty (failures (events r)) +:+ " failed")]) ∧
     ((0 < failures (events r))%nat -> exit_code r = 1) ∧
     (failures (events r) = 0%nat -> exit_code r = 0)) ∧
  disk_after r = disk.
Proof.
  intros Hne Hstem Htrail Hplain Hdir Hnames r json_files. subst r.
  unfold run_main, main, import_translations, getitem. unfold_io. unfold_M. simpl.
  rewrite Hdir. simpl.
  rewrite (glob_directory w stem trail (State disk [] 0)) by done.
  cbn [trace]. fold json_files. clearbody json_files.
  case_bool_decide as Hfiles; simpl.
  { apply fmap_nil_inv in Hfiles. split_and!; done. }
  assert (json_files ≠ []) as Hfiles' by (by intros ->).
  destruct (import_translations_loop_run w api
              (read_stripped <$> token_file disk)
              ((fun name => stem +:+ "/" +:+ name) <$> json_files) 0 0 (State disk [] 0))
    as (sc & fc & evs & E & A & S & F & T).
  cbn [fs trace draws] in E. rewrite E. simpl in *. subst sc fc.
  rewrite length_fmap in T.
  split_and!; [done | intros _ |
    by case_bool_decide ].
  case_bool_decide as Hf; simpl;
    rewrite attempted_snoc_print, successes_snoc_print, failures_snoc_print, last_snoc;
    split_and!; try done; lia.
Qed.

Lemma import_translations_batch_witness :
  attempted (events (run_main
      (sample_world (picky_server "translations/b.json") ["a.json"; "b.json"; "c.json"])
      no_disk ["script.py"; "import-translations"; "translations" +:+ "/"; "http://api"]))
  = ["translations/a.json"; "translations/b.json"; "translations/c.json"].
Proof.
  pose proof (import_translations_batch
      (sample_world (picky_server "translations/b.json") ["a.json"; "b.json"; "c.json"])
      no_disk "script.py" "translations" "/" "http://api") as H.
  destruct H as (_ & H & _).
  - discriminate.
  - by apply not_endswith.
  - repeat constructor.
  - unfold plain_path. vm_compute. repeat (constructor; [done|]). constructor.
  - reflexivity.
  - simpl. repeat (constructor; [split; [discriminate | vm_compute; intros Hin; elem_cases Hin]|]).
    constructor.
  - apply H. vm_compute. discriminate.
Defined.

(** C2, as worded, fails on an entry that begins with a dot: the
    pattern [*.json] does not name it, and the file is not attempted. *)
Lemma batch_claim_fails :
  ¬ batch_claim (sample_world rejecting_server [".draft.json"]) no_disk
      "script.py" "translations" "http://api".
Proof.
  intros H.
  assert (json_name ".draft.json") as Hj by (by exists (list_ascii_of_string ".draft")).
  specialize (H ".draft.json" (list_elem_of_here _ _) Hj).
  vm_compute in H. inversion H.
Qed.

(** Three files of which the second is refused, beside a hidden file and
    a file of another kind: two successes, one failure, exit status 1. *)
Example import_translations_one_of_three_fails :
  let r := run_main
      (sample_world (picky_server "translations/b.json")
         ["a.json"; ".draft.json"; "b.json"; "notes.txt"; "c.json"])
      no_disk ["script.py"; "import-translations"; "translations"; "http://api"] in
  exit_code r = 1 ∧ successes (events r) = 2%nat ∧ failures (events r) = 1%nat ∧
  attempted (events r) = ["translations/a.json"; "translations/b.json"; "translations/c.json"].
Proof. vm_compute. done. Qed.

(** ** Creating a takhtit *)

Lemma generate_strong_password_returns w n :
  rng_only (generate_strong_password w n) (fun _ => True).
Proof.
  eapply rng_only_weaken; [apply generate_strong_password_rng_only|done].
Qed.

(** Every run of [create_user]: the files are untouched, the only request
    is the POST to [/users/], and the account identifier is returned
    exactly when the answer is 201 with a JSON object, of which it is the
    [uuid] member or None. *)
Lemma create_user_inv w api s o s' :
  create_user w api s = (o, s') ->
  fs s' = fs s ∧
  ∃ evs, trace s' = trace s ++ evs ∧
    (∀ req r, EvHttp req r ∈ evs -> method req = "POST" ∧ url req = api +:+ "/users/") ∧
    (∀ v, o = Normal v ->
       ∃ req resp d, evs = user_created_events req resp v ∧
         status_code resp = 201 ∧ json resp = inr (PDict d) ∧
         v = default PNone (d !! "uuid")) ∧
    (∀ resp d, received evs "POST" (api +:+ "/users/") resp ->
       status_code resp = 201 -> json resp = inr (PDict d) ->
       o = Normal (default PNone (d !! "uuid")) ∧
       ∃ req, evs = user_created_events req resp (default PNone (d !! "uuid"))).
Proof.
  unfold create_user, load_token. unfold_M. simpl.
  destruct (truthy (of_opt (read_stripped <$> token_file (fs s)))) eqn:Htok; simpl.
  2:{ got_result. split; [done|]. eexists. split; [reflexivity|].
      split_and!.
      - intros req r Hin. elem_cases Hin.
      - intros v Hv. discriminate.
      - intros resp d (h & b & Hin). elem_cases Hin. }
  destruct (generate_strong_password_returns w 16 s) as (pw & d & Epw & _).
  rewrite Epw. unfold_io. unfold try_except. simpl.
  exec; got_result; (split; [done|]); eexists; (split; [reflexivity|]); split_and!.
  all: try (intros req r0 Hin; elem_cases Hin; injection Hin as -> ->; done).
  all: try (intros v Hv; try discriminate Hv; injection Hv as <-).
  all: try (intros resp dd (hh & bb & Hin) Hst Hj; elem_cases Hin; injection Hin as -> -> ->).
  all: try congruence.
  all: try match goal with
       | H : (status_code _ =? 201) = false |- _ => rewrite Hst in H; discriminate
       end.
  - eexists _, _, _. split_and!; [reflexivity | by apply Z.eqb_eq | done | done].
  - rewrite Heqs1 in Hj. injection Hj as <-. split; [done | eexists; reflexivity].
Qed.

(** The scan of a listing without a hafs entry finds nothing, or stops
    at an entry that is not an object. It has no effect. *)
Lemma find_hafs_none (l : list pyval) (s : state) :
  (∀ m, m ∈ l -> ¬ is_hafs m) ->
  ∃ o, find_hafs l s = (o, s) ∧ (o = Normal PNone ∨ ∃ e, o = Raised e).
Proof.
  induction l as [|m l IH]; intros Hno; simpl.
  - eauto.
  - destruct m; unfold_M; simpl; eauto.
    destruct (eq_str (default PNone (d !! "short_name")) "hafs") eqn:Heq.
    + exfalso. apply (Hno (PDict d)); [apply list_elem_of_here|].
      exists d. split; [done|].
      destruct (d !! "short_name") as [[]|]; simpl in Heq; try discriminate.
      by apply String.eqb_eq in Heq as ->.
    + apply IH. intros m Hm. apply Hno. by apply list_elem_of_further.
Qed.

(** The scan stops at the first hafs entry and yields its [uuid]. *)
Lemma find_hafs_found (pre post : list pyval) (d : gmap string pyval) (s : state) :
  Forall other_mushaf pre ->
  d !! "short_name" = Some (PStr "hafs") ->
  find_hafs (pre ++ PDict d :: post) s = (Normal (default PNone (d !! "uuid")), s).
Proof.
  intros Hpre Hd. induction Hpre as [|m pre (d' & -> & Hd') _ IH]; simpl; unfold_M; simpl.
  - by rewrite Hd.
  - destruct (eq_str (default PNone (d' !! "short_name")) "hafs") eqn:Heq; [|done].
    exfalso. apply Hd'.
    destruct (d' !! "short_name") as [[]|]; simpl in Heq; try discriminate.
    by apply String.eqb_eq in Heq as ->.
Qed.

Lemma users_is_not_takhtits api : api +:+ "/users/" ≠ api +:+ "/takhtits/".
Proof. intros H. by apply (inj (String.app api)) in H. Qed.

Lemma find_hafs_state (l : list pyval) (s : state) : (find_hafs l s).2 = s.
Proof.
  induction l as [|m l IH]; simpl; [done|].
  destruct m; unfold_M; simpl; try done.
  by destruct (eq_str (default PNone (d !! "short_name")) "hafs").
Qed.

Ltac scan_keeps_state :=
  match goal with
  | H : find_hafs ?l ?st = (_, ?s2) |- _ =>
      let Hs := fresh "Hs" in
      pose proof (find_hafs_state l st) as Hs; rewrite H in Hs; simpl in Hs; subst s2
  end.


Lemma elem_of_network_calls req tr :
  req ∈ network_calls tr -> ∃ r, EvHttp req r ∈ tr.
Proof.
  unfold network_calls. intros (ev & Hev & Hreq)%list_elem_of_omap.
  destruct ev; simplify_eq. eauto.
Qed.

#[local] Arguments create_user : simpl never.
#[local] Arguments find_hafs : simpl never.

Lemma create_takhtit_no_hafs w api s resp l :
  status_code resp = 200 ->
  json resp = inr (PList l) ->
  (∀ m, m ∈ l -> ¬ is_hafs m) ->
  received (emitted (create_takhtit w api) s) "GET" (api +:+ "/mushafs/") resp ->
  exit_status (create_takhtit w api s).1 = 1 ∧
  fs (create_takhtit w api s).2 = fs s ∧
  ∀ b, ¬ sent (emitted (create_takhtit w api) s) "POST" (api +:+ "/takhtits/") b.
Proof.
  intros Hst Hj Hno. unfold emitted.
  run_of (create_takhtit w api) s.
  unfold create_takhtit, load_token. unfold_M. simpl.
  destruct (truthy (of_opt (read_stripped <$> token_file (fs s)))) eqn:Htok; simpl.
  2:{ got_result. intros (h & b & Hin). elem_cases Hin. }
  destruct (create_user w api s) as [o1 s1] eqn:E1.
  apply create_user_inv in E1 as (Hfs & evs & Htr & Hposts & _ & _).
  unfold_io. unfold try_except, py_iter. simpl.
  destruct o1 as [v|e|c]; simpl; exec; try scan_keeps_state; got_result.
  all: rewrite Htr, <- ?(assoc_L (++)), drop_app_length.
  all: try (intros (hh & bb & Hin); apply Hposts in Hin as [? _]; discriminate).
  all: intros (hh & bb & Hin); apply elem_of_app in Hin as [Hin|Hin];
    [ apply Hposts in Hin as [? _]; discriminate | elem_cases Hin ].
  all: injection Hin as -> -> ->.
  all: try congruence.
  all: try match goal with
       | H : negb (status_code _ =? 200) = true |- _ => rewrite Hst in H; discriminate
       end.
  all: match goal with
       | H : json _ = inr _ |- _ => rewrite H in Hj; injection Hj as ->
       end.
  all: match goal with
       | H : find_hafs ?l0 ?st = (?o, _) |- _ =>
           destruct (find_hafs_none l0 st Hno) as (o' & Ho' & Hcases);
           rewrite H in Ho'; injection Ho' as <-;
           destruct Hcases as [Hc|(e' & Hc)];
           try discriminate Hc; try (injection Hc as ->)
       end.
  all: try discriminate.
  all: (split; [done|]); (split; [done|]).
  all: intros b (h & Hin); rewrite network_calls_app in Hin;
       apply elem_of_app in Hin as [Hin|Hin];
       [ apply elem_of_network_calls in Hin as [r0 Hin];
         apply Hposts in Hin as [_ Hurl]; simpl in Hurl;
         symmetry in Hurl; by apply users_is_not_takhtits in Hurl
       | simpl in Hin; elem_cases Hin ].
Qed.

Lemma users_is_not_mushafs api : api +:+ "/users/" ≠ api +:+ "/mushafs/".
Proof. intros H. by apply (inj (String.app api)) in H. Qed.

Lemma create_takhtit_after_user_without_uuid w api s resp d resp2 pre m post h :
  status_code resp = 201 ->
  json resp = inr (PDict d) ->
  d !! "uuid" = None ->
  status_code resp2 = 200 ->
  json resp2 = inr (PList (pre ++ PDict m :: post)) ->
  Forall other_mushaf pre ->
  m !! "short_name" = Some (PStr "hafs") ->
  m !! "uuid" = Some h ->
  truthy h = true ->
  received (emitted (create_takhtit w api) s) "POST" (api +:+ "/users/") resp ->
  received (emitted (create_takhtit w api) s) "GET" (api +:+ "/mushafs/") resp2 ->
  sent (emitted (create_takhtit w api) s) "POST" (api +:+ "/takhtits/")
    (JsonBody (takhtit_payload h PNone)).
Proof.
  intros Hst Hj Hd Hst2 Hj2 Hpre Hm Hh Hth. unfold emitted.
  run_of (create_takhtit w api) s.
  unfold create_takhtit, load_token. unfold_M. simpl.
  destruct (truthy (of_opt (read_stripped <$> token_file (fs s)))) eqn:Htok; simpl.
  2:{ got_result. intros (hh & b & Hin). elem_cases Hin. }
  destruct (create_user w api s) as [o1 s1] eqn:E1.
  apply create_user_inv in E1 as (Hfs & evs & Htr & Hposts & _ & Hrecv).
  specialize (Hrecv resp d).
  unfold_io. unfold try_except, py_iter. simpl.
  destruct o1 as [v|e|c]; simpl; exec; try scan_keeps_state; got_result.
  all: rewrite Htr, <- ?(assoc_L (++)), drop_app_length.
  all: intros Hu Hg.
  all: try (destruct Hg as (hh & bb & Hin); apply Hposts in Hin as [? _]; discriminate).
  (* the answer to the POST to /users/ is among the events of create_user *)
  all: assert (received evs "POST" (api +:+ "/users/") resp) as Hu';
    [ destruct Hu as (hh & bb & Hin); apply elem_of_app in Hin as [Hin|Hin];
      [ by exists hh, bb
      | elem_cases Hin;
        apply (f_equal (fun ev => match ev with EvHttp req _ => url req | _ => "" end)) in Hin;
        simpl in Hin; by apply users_is_not_takhtits in Hin ]
    | destruct (Hrecv Hu' Hst Hj) as [Hv _]; rewrite Hd in Hv; simpl in Hv;
      injection Hv as ->; clear Hu Hu' Hrecv ].
  all: destruct Hg as (hh & bb & Hin); apply elem_of_app in Hin as [Hin|Hin];
    [ apply Hposts in Hin as [? _]; discriminate | elem_cases Hin ].
  all: injection Hin as -> -> ->.
  all: try congruence.
  all: try match goal with
       | H : negb (status_code _ =? 200) = true |- _ => rewrite Hst2 in H; discriminate
       end.
  all: match goal with
       | H : json _ = inr _ |- _ => rewrite H in Hj2; injection Hj2 as ->
       end.
  all: match goal with
       | H : find_hafs _ ?st = _ |- _ =>
           rewrite (find_hafs_found pre post m st Hpre Hm), Hh in H; simpl in H;
           first [ discriminate H | injection H as <- ]
       end.
  all: try (rewrite Hth in *; discriminate).
  all: eexists; rewrite network_calls_app; apply elem_of_app; right; simpl;
       apply list_elem_of_further, list_elem_of_here.
Qed.

Lemma emitted_log {A} (m : M A) (s : state) (evs : list event) :
  trace (m s).2 = trace s ++ evs -> emitted m s = evs.
Proof. intros E. unfold emitted. rewrite E. apply drop_app_length. Qed.

(** The command create-takhtit with its one argument is the call of
    [create_takhtit] in the state the process starts in. *)
Lemma run_main_create_takhtit w disk prog api :
  run_main w disk [prog; "create-takhtit"; api] =
  Result (exit_status (create_takhtit w api (State disk [] 0)).1)
         (fs (create_takhtit w api (State disk [] 0)).2)
         (emitted (create_takhtit w api) (State disk [] 0)).
Proof.
  unfold run_main, main, getitem, emitted. unfold_M. simpl.
  by destruct (create_takhtit w api _) as [[] ?].
Qed.

(** C5. A run of create-takhtit in which the listing of the mushafs was
    fetched (status 200, a JSON list) and holds no entry whose
    [short_name] is ["hafs"] ends with status 1; no POST to [/takhtits/]
    is among its requests, and the credential files, the cached takhtit
    identifier among them, are as before. *)
Theorem create_takhtit_without_hafs (w : World) (disk : files) (prog api : string)
    (resp : response) (l : list pyval) :
  let r := run_main w disk [prog; "create-takhtit"; api] in
  received (events r) "GET" (api +:+ "/mushafs/") resp ->
  status_code resp = 200 ->
  json resp = inr (PList l) ->
  (∀ m, m ∈ l -> ¬ is_hafs m) ->
  exit_code r = 1 ∧
  (∀ b, ¬ sent (events r) "POST" (api +:+ "/takhtits/") b) ∧
  disk_after r = disk ∧
  takhtit_uuid_file (disk_after r) = takhtit_uuid_file disk.
Proof.
  intros r. subst r. rewrite run_main_create_takhtit. simpl.
  intros Hrecv Hst Hj Hno.
  destruct (create_takhtit_no_hafs w api (State disk [] 0) resp l Hst Hj Hno Hrecv)
    as (Hexit & Hfs & Hsent).
  simpl in Hfs. rewrite Hfs. done.
Qed.

Lemma create_takhtit_without_hafs_witness :
  let r := run_main (sample_world (takhtit_server [warsh]) [])
             (Files (Some "token") (Some "takhtit-0"))
             ["script.py"; "create-takhtit"; "http://api"] in
  exit_code r = 1 ∧
  (∀ b, ¬ sent (events r) "POST" ("http://api" +:+ "/takhtits/") b) ∧
  disk_after r = Files (Some "token") (Some "takhtit-0") ∧
  takhtit_uuid_file (disk_after r) = Some "takhtit-0".
Proof.
  apply (create_takhtit_without_hafs (sample_world (takhtit_server [warsh]) [])
           (Files (Some "token") (Some "takhtit-0")) "script.py" "http://api"
           (Response 200 "[...]" (inr (PList [warsh]))) [warsh]).
  - eexists _, _. vm_compute. repeat constructor.
  - reflexivity.
  - reflexivity.
  - intros m Hm (d & -> & Hd). elem_cases Hm. injection Hm as ->.
    vm_compute in Hd. discriminate.
Defined.

(** C9. When the server answers the creation of the user with status 201
    and a JSON object that has no [uuid] member, [create_user] returns
    None: it neither exits nor raises, and what it prints is the response
    and the line of success. [create_takhtit] then goes on: once the
    listing is fetched and its first hafs entry has a [uuid] [h], the POST
    to [/takhtits/] is sent with a JSON object whose member [mushaf_uuid]
    is [h] and whose member [account_uuid] is None. *)
Theorem create_user_without_uuid_goes_on (w : World) (api : string) (s : state)
    (resp : response) (d : gmap string pyval) :
  status_code resp = 201 ->
  json resp = inr (PDict d) ->
  d !! "uuid" = None ->
  (received (emitted (create_user w api) s) "POST" (api +:+ "/users/") resp ->
     (create_user w api s).1 = Normal PNone ∧
     ∃ req, emitted (create_user w api) s = user_created_events req resp PNone) ∧
  (∀ resp2 pre m post h,
     status_code resp2 = 200 ->
     json resp2 = inr (PList (pre ++ PDict m :: post)) ->
     Forall other_mushaf pre ->
     m !! "short_name" = Some (PStr "hafs") ->
     m !! "uuid" = Some h ->
     truthy h = true ->
     received (emitted (create_takhtit w api) s) "POST" (api +:+ "/users/") resp ->
     received (emitted (create_takhtit w api) s) "GET" (api +:+ "/mushafs/") resp2 ->
     ∃ body,
       sent (emitted (create_takhtit w api) s) "POST" (api +:+ "/takhtits/")
         (JsonBody (PDict body)) ∧
       body !! "account_uuid" = Some PNone ∧
       body !! "mushaf_uuid" = Some h).
Proof.
  intros Hst Hj Hd. split.
  - destruct (create_user w api s) as [o s'] eqn:E.
    pose proof E as E'.
    apply create_user_inv in E' as (_ & evs & Htr & _ & _ & Hrecv).
    rewrite (emitted_log (create_user w api) s evs) by (by rewrite E).
    intros Hin. destruct (Hrecv resp d Hin Hst Hj) as [-> Hevs].
    rewrite Hd in *. done.
  - intros resp2 pre m post h Hst2 Hj2 Hpre Hm Hh Hth Hu Hg.
    eexists. split; [by eapply create_takhtit_after_user_without_uuid|].
    split; [|by apply lookup_insert_eq].
    rewrite lookup_insert_ne by done. by apply lookup_insert_eq.
Qed.

Lemma create_user_without_uuid_goes_on_witness :
  (create_user (sample_world (takhtit_server [warsh; hafs]) []) "http://api"
     (State (Files (Some "token") None) [] 0)).1 = Normal PNone ∧
  ∃ body,
    sent (emitted (create_takhtit (sample_world (takhtit_server [warsh; hafs]) []) "http://api")
            (State (Files (Some "token") None) [] 0))
      "POST" ("http://api" +:+ "/takhtits/") (JsonBody (PDict body)) ∧
    body !! "account_uuid" = Some PNone ∧
    body !! "mushaf_uuid" = Some (PStr "mushaf-2").
Proof.
  destruct (create_user_without_uuid_goes_on
              (sample_world (takhtit_server [warsh; hafs]) []) "http://api"
              (State (Files (Some "token") None) [] 0)
              (Response 201 "{}" (inr (PDict ∅))) ∅ eq_refl eq_refl (lookup_empty _))
    as [Hu Ht].
  split.
  - refine (proj1 (Hu _)). eexists _, _. vm_compute. repeat constructor.
  - apply (Ht (Response 200 "[...]" (inr (PList [warsh; hafs])))
              [warsh] {[ "short_name" := PStr "hafs"; "uuid" := PStr "mushaf-2" ]}
              [] (PStr "mushaf-2")).
    + reflexivity.
    + reflexivity.
    + repeat constructor. eexists. split; [reflexivity|]. vm_compute. discriminate.
    + reflexivity.
    + reflexivity.
    + reflexivity.
    + eexists _, _. vm_compute. repeat constructor.
    + eexists _, _. vm_compute. repeat constructor.
Defined.

(** ** The model at work *)

Example strip_trims_both_ends :
  strip (String "009" "  tok en " +:+ String "010" "") = "tok en".
Proof. reflexivity. Qed.

Example paths :
  basename "translations/fa.json" = "fa.json" ∧
  path_join "translations" "*.json" = "translations/*.json" ∧
  path_join "translations/" "*.json" = "translations/*.json" ∧
  endswith "fa.json" ".json" = true ∧ endswith "json" ".json" = false.
Proof. done. Qed.

(** The pattern of a directory splits into the directory and [*.json];
    a text file is read with its line ends as line feeds. *)
Example patterns_and_text :
  os_path_split "translations//*.json" = ("translations", "*.json") ∧
  os_path_split "/*.json" = ("/", "*.json") ∧
  has_magic "d[1]" = true ∧ has_magic "translations" = false ∧
  universal_newlines ("a" +:+ String "013" (String "010" "b") +:+ String "013" "c")
    = "a" +:+ String "010" "b" +:+ String "010" "c".
Proof. done. Qed.

(** A short password is made 8 characters long; with the random source
    that counts upwards it is the one below. *)
Example short_password :
  (generate_strong_password (sample_world rejecting_server []) 3 (State no_disk [] 0)).1
  = Normal "g#fhBe2a".
Proof. vm_compute. reflexivity. Qed.

(** A login that succeeds: the token is stored as it came and loads
    trimmed; the process ends with status 0. *)
Example login_stores_token :
  let server := fun _ : request =>
    inr (Response 200 "{...}"
           (inr (PDict {[ "token" := PStr (" tok" +:+ String "010" "") ]}))) in
  let r := run_main (sample_world server []) no_disk ["script.py"; "login"; "http://api"] in
  exit_code r = 0 ∧
  token_file (disk_after r) = Some (" tok" +:+ String "010" "") ∧
  (load_token (State (disk_after r) [] 0)).1 = Normal (Some "tok").
Proof. vm_compute. done. Qed.

(** A run of create-takhtit that succeeds stores the identifier. *)
Example create_takhtit_stores_uuid :
  let r := run_main (sample_world (takhtit_server [warsh; hafs]) [])
             (Files (Some "token") None)
             ["script.py"; "create-takhtit"; "http://api"] in
  exit_code r = 0 ∧ disk_after r = Files (Some "token") (Some "takhtit-1") ∧
  length (network_calls (events r)) = 3%nat.
Proof. vm_compute. done. Qed.

(** * Further properties *)

(** ** Single-file imports *)

(** X1. import-mushaf and import-translation given a path that is not a
    file, or a file whose name does not end in [.json], end with status 1
    after one line of error: the file is not opened, no request is sent
    and the credential files are untouched. The existence of the file is
    tested first. *)
Theorem single_import_rejects_bad_path (w : World) (disk : files)
    (prog command file_path api : string) :
  command = "import-mushaf" ∨ command = "import-translation" ->
  path_isfile w [] file_path = false ∨ endswith file_path ".json" = false ->
  run_main w disk [prog; command; file_path; api] =
    Result 1 disk
      [EvPrint [FStr (if path_isfile w [] file_path
                      then "Error: Input file must be a .json file."
                      else "Error: File '" +:+ file_path +:+ "' does not exist.")]].
Proof.
  intros [-> | ->] Hbad;
    unfold run_main, main, import_one, getitem; unfold_io; unfold_M; simpl;
    destruct (path_isfile w [] file_path); simpl; try done;
    destruct Hbad as [Hbad|Hbad]; try discriminate; by rewrite Hbad.
Qed.

Lemma single_import_rejects_bad_path_witness :
  run_main (sample_world rejecting_server []) no_disk
    ["script.py"; "import-mushaf"; "hafs.txt"; "http://api"] =
  Result 1 no_disk [EvPrint [FStr "Error: Input file must be a .json file."]].
Proof.
  exact (single_import_rejects_bad_path (sample_world rejecting_server []) no_disk
           "script.py" "import-mushaf" "hafs.txt" "http://api"
           (or_introl eq_refl) (or_intror eq_refl)).
Defined.

(** What the uploads are sent under. *)
Lemma upload_headers_token (file : option string) (tok : string) :
  upload_token file tok -> upload_headers (read_stripped <$> file) = authorization tok.
Proof.
  intros [[-> ->]|(content & -> & Htrim & Hcr)]; [done|].
  simpl. rewrite (read_stripped_trimming _ _ Htrim Hcr). by destruct tok.
Qed.

(** A text that begins and ends with something else than whitespace, and
    holds no carriage return, is cached as it is. *)
Lemma cached_text (a b : ascii) (middle : string) :
  isspace a = false -> isspace b = false ->
  no_cr (String a (middle +:+ String b EmptyString)) ->
  cached (Some (String a (middle +:+ String b EmptyString)))
         (String a (middle +:+ String b EmptyString)).
Proof. intros Ha Hb Hcr. eexists. split; [done|]. split; [by apply text_is_trimmed | done]. Qed.

#[local] Arguments upload_headers : simpl never.
#[local] Arguments basename : simpl never.

(** X2. import-mushaf and import-translation given an existing file
    whose name ends in [.json] open it once and send at most one request:
    the POST of the file, under its file name, to the endpoint of the
    command, with the header [Authorization: Token <token>] when a token
    is cached and without it when the token file is missing or blank.
    Nothing is sent when the file cannot be opened. The exit status is 0
    when the answer has status 200 or 201 and 1 otherwise; the credential
    files are untouched. *)
Theorem single_import_outcome (w : World) (disk : files)
    (prog command endpoint file_path api tok : string) :
  import_endpoint command endpoint ->
  upload_token (token_file disk) tok ->
  path_isfile w [] file_path = true ->
  json_name file_path ->
  let r := run_main w disk [prog; command; file_path; api] in
  attempted (events r) = [file_path] ∧
  (network_calls (events r) = [] ∨
   ∃ req, network_calls (events r) = [req] ∧
          is_upload (api +:+ endpoint) (authorization tok) file_path req) ∧
  (∀ e, file_open w [] file_path = Some e -> network_calls (events r) = []) ∧
  (exit_code r = 0 ∧ successes (events r) = 1%nat ∨
   exit_code r = 1 ∧ successes (events r) = 0%nat) ∧
  disk_after r = disk.
Proof.
  intros Hc Htok Hfile Hjson%json_name_spec r. subst r.
  apply upload_headers_token in Htok.
  pose proof (basename_spec file_path) as Hname.
  destruct Hc as [[-> ->] | [-> ->]];
    unfold run_main, main, import_one, getitem, print_response,
      send_file_to_api, send_translation_to_api;
    unfold_io; unfold_M; simpl; rewrite Hfile; simpl; rewrite Hjson; simpl;
    rewrite ?Htok;
    exec; unfold successes; simpl;
    rewrite ?status_succeeded_test;
    repeat match goal with
           | H : not_in_200_201 _ = _ |- _ => rewrite !H
           end; simpl;
    split_and!; try done; auto; try (intros; congruence);
    right; eexists; (split; [reflexivity|]); by eexists.
Qed.

Lemma single_import_outcome_witness :
  let r := run_main (sample_world (picky_server "bad.json") []) (Files (Some "token") None)
             ["script.py"; "import-translation"; "fa.json"; "http://api"] in
  attempted (events r) = ["fa.json"] ∧
  (network_calls (events r) = [] ∨
   ∃ req, network_calls (events r) = [req] ∧
          is_upload ("http://api" +:+ "/translations/import/")
            [("Authorization", "Token " +:+ "token")] "fa.json" req) ∧
  (∀ e, @None exn = Some e -> network_calls (events r) = []) ∧
  (exit_code r = 0 ∧ successes (events r) = 1%nat ∨
   exit_code r = 1 ∧ successes (events r) = 0%nat) ∧
  disk_after r = Files (Some "token") None.
Proof.
  refine (single_import_outcome (sample_world (picky_server "bad.json") [])
           (Files (Some "token") None)
           "script.py" "import-translation" "/translations/import/" "fa.json" "http://api"
           "token" (or_intror (conj eq_refl eq_refl)) (or_intror _) eq_refl _).
  - apply (cached_text "t" "n" "oke"); [reflexivity | reflexivity |].
    unfold no_cr. simpl. intros H. elem_cases H.
  - by exists (list_ascii_of_string "fa").
Defined.

(** ** Login, further *)

Lemma default_truthy (o : option pyval) (v : pyval) :
  default PNone o = v -> truthy v = true -> o = Some v.
Proof. destruct o; simpl; [congruence|]. intros <-. discriminate. Qed.

(** X3. Whatever the server and the terminal do, [login] sends at most
    one request, the POST to [/auth/login/]; it never touches the file of
    the takhtit identifier; and the token file differs afterwards only if
    the server answered with status 200 and a JSON object whose [token]
    member is truthy. *)
Theorem login_writes_only_a_granted_token (w : World) (api : string)
    (ou op : option string) (s : state) :
  takhtit_uuid_file (fs (login w api ou op s).2) = takhtit_uuid_file (fs s) ∧
  (length (network_calls (emitted (login w api ou op) s)) <= 1)%nat ∧
  (∀ req, req ∈ network_calls (emitted (login w api ou op) s) ->
     method req = "POST" ∧ url req = api +:+ "/auth/login/") ∧
  (token_file (fs (login w api ou op s).2) ≠ token_file (fs s) ->
     ∃ resp d tok,
       received (emitted (login w api ou op) s) "POST" (api +:+ "/auth/login/") resp ∧
       status_code resp = 200 ∧ json resp = inr (PDict d) ∧
       d !! "token" = Some tok ∧ truthy tok = true).
Proof.
  unfold emitted.
  run_of (login w api ou op) s.
  unfold login. unfold_io. unfold_M.
  destruct ou as [u|], op as [p|]; simpl; exec; got_result.
  all: split_and!; [ done | simpl; lia | | ].
  all: try (intros req Hin; simpl in Hin; elem_cases Hin; by subst).
  all: try (intros Hne; congruence).
  all: intros _; eexists _, _, _; split_and!;
    [ eexists _, _; apply list_elem_of_In; simpl; eauto
    | by apply Z.eqb_eq
    | eassumption
    | eapply default_truthy; [eassumption | done]
    | done ].
Qed.

(** X4. A login that is answered by status 200 and a non-empty string as
    the [token] member stores that string, as it came, in place of
    whatever the token file held, prints the line of success last and
    returns normally; the file of the takhtit identifier is kept. *)
Theorem login_stores_granted_token (w : World) (api : string) (ou op : option string)
    (s : state) (resp : response) (d : gmap string pyval) (t : string) :
  received (emitted (login w api ou op) s) "POST" (api +:+ "/auth/login/") resp ->
  status_code resp = 200 ->
  json resp = inr (PDict d) ->
  d !! "token" = Some (PStr t) ->
  t ≠ EmptyString ->
  (login w api ou op s).1 = Normal tt ∧
  fs (login w api ou op s).2 = Files (Some t) (takhtit_uuid_file (fs s)) ∧
  last (emitted (login w api ou op) s) =
    Some (EvPrint [FStr "Login successful. Token saved."]).
Proof.
  intros (h & b & Hin) Hst Hj Hd Ht. revert Hin. unfold emitted.
  run_of (login w api ou op) s.
  unfold login. unfold_io. unfold_M.
  destruct ou as [u|], op as [p|]; simpl; exec; got_result;
    intros Hin; elem_cases Hin; injection Hin as -> -> ->;
    try congruence;
    match goal with
    | H : json _ = inr _ |- _ => rewrite H in Hj; try injection Hj as ->
    end;
    rewrite ?Hd in *; simpl in *; try congruence.
  all: match goal with
       | H : negb (String.eqb _ _) = false |- _ =>
           apply negb_false_iff, String.eqb_eq in H; congruence
       | H : (status_code _ =? 200) = false |- _ =>
           rewrite Hst in H; discriminate
       | H : PStr _ = PStr _ |- _ => injection H as ->; done
       end.
Qed.

Lemma login_stores_granted_token_witness :
  (login (sample_world (granting_server (PStr "abc123")) []) "http://api"
     (Some "reader") (Some "secret") (State (Files (Some "old") (Some "t-1")) [] 0)).1
    = Normal tt ∧
  fs (login (sample_world (granting_server (PStr "abc123")) []) "http://api"
        (Some "reader") (Some "secret") (State (Files (Some "old") (Some "t-1")) [] 0)).2
    = Files (Some "abc123") (Some "t-1") ∧
  last (emitted (login (sample_world (granting_server (PStr "abc123")) []) "http://api"
                   (Some "reader") (Some "secret"))
          (State (Files (Some "old") (Some "t-1")) [] 0))
    = Some (EvPrint [FStr "Login successful. Token saved."]).
Proof.
  apply (login_stores_granted_token
           (sample_world (granting_server (PStr "abc123")) []) "http://api"
           (Some "reader") (Some "secret") (State (Files (Some "old") (Some "t-1")) [] 0)
           (Response 200 "{...}" (inr (PDict {[ "token" := PStr "abc123" ]})))
           {[ "token" := PStr "abc123" ]} "abc123").
  - eexists _, _. vm_compute. apply list_elem_of_here.
  - reflexivity.
  - reflexivity.
  - vm_compute. reflexivity.
  - discriminate.
Defined.

(** X5. A login that is answered by status 200 and a [token] member that
    is truthy but not a string (a number, a list, an object) loses the
    cached token: the token file is opened for writing, which empties it,
    the write raises, and the process is ended with status 1. *)
Theorem login_non_string_token_empties_file (w : World) (api : string)
    (ou op : option string) (s : state) (resp : response)
    (d : gmap string pyval) (tok : pyval) :
  received (emitted (login w api ou op) s) "POST" (api +:+ "/auth/login/") resp ->
  status_code resp = 200 ->
  json resp = inr (PDict d) ->
  d !! "token" = Some tok ->
  truthy tok = true ->
  (∀ t, tok ≠ PStr t) ->
  (login w api ou op s).1 = Exited 1 ∧
  fs (login w api ou op s).2 = Files (Some EmptyString) (takhtit_uuid_file (fs s)).
Proof.
  intros (h & b & Hin) Hst Hj Hd Htok Hstr. revert Hin. unfold emitted.
  run_of (login w api ou op) s.
  unfold login. unfold_io. unfold_M.
  destruct ou as [u|], op as [p|]; simpl; exec; got_result;
    intros Hin; elem_cases Hin; injection Hin as -> -> ->;
    try congruence;
    match goal with
    | H : json _ = inr _ |- _ => rewrite H in Hj; try injection Hj as ->
    end;
    rewrite ?Hd in *; simpl in *; subst; try done; try congruence.
  all: try (exfalso; by eapply Hstr).
  all: match goal with
       | H : (status_code _ =? 200) = false |- _ =>
           rewrite Hst in H; discriminate
       end.
Qed.

Lemma login_non_string_token_empties_file_witness :
  (login (sample_world (granting_server (PInt 42)) []) "http://api"
     (Some "reader") (Some "secret") (State (Files (Some "old") None) [] 0)).1
    = Exited 1 ∧
  fs (login (sample_world (granting_server (PInt 42)) []) "http://api"
        (Some "reader") (Some "secret") (State (Files (Some "old") None) [] 0)).2
    = Files (Some EmptyString) None.
Proof.
  apply (login_non_string_token_empties_file
           (sample_world (granting_server (PInt 42)) []) "http://api"
           (Some "reader") (Some "secret") (State (Files (Some "old") None) [] 0)
           (Response 200 "{...}" (inr (PDict {[ "token" := PInt 42 ]})))
           {[ "token" := PInt 42 ]} (PInt 42)).
  - eexists _, _. vm_compute. apply list_elem_of_here.
  - reflexivity.
  - reflexivity.
  - vm_compute. reflexivity.
  - reflexivity.
  - discriminate.
Defined.

(** X6. [login] shows a prompt for each credential it was not given, the
    user name first, and none for a credential it was given. It raises
    only when a prompt fails (end of input), and then before any request
    is sent and without touching the files. *)
Theorem login_prompts (w : World) (api : string) (ou op : option string) (s : state) :
  (network_calls (emitted (login w api ou op) s) ≠ [] ->
     prompts (emitted (login w api ou op) s) = expected_prompts ou op) ∧
  (∀ e, (login w api ou op s).1 = Raised e ->
     network_calls (emitted (login w api ou op) s) = [] ∧
     fs (login w api ou op s).2 = fs s ∧
     ∃ prompt, last (emitted (login w api ou op) s) = Some (EvInput prompt (inl e)) ∨
               last (emitted (login w api ou op) s) = Some (EvGetpass prompt (inl e))).
Proof.
  unfold emitted.
  run_of (login w api ou op) s.
  unfold login. unfold_io. unfold_M.
  destruct ou as [u|], op as [p|]; simpl; exec; got_result.
  all: split; [ try done | intros e' He'; try discriminate He' ].
  all: injection He' as <-; split_and!; try done; eexists; eauto.
Qed.

(** At the end of input the prompt for the user name raises: the run
    ends with status 1, nothing was sent and nothing stored. *)
Example login_at_end_of_input :
  let r := run_main (closed_terminal (sample_world (granting_server (PStr "abc123")) []))
             no_disk ["script.py"; "login"; "http://api"] in
  exit_code r = 1 ∧ network_calls (events r) = [] ∧ disk_after r = no_disk ∧
  prompts (events r) = ["Username: "].
Proof. vm_compute. done. Qed.

(** ** Creating a takhtit, further *)

(** The run of [create_takhtit], by the answer to the POST to
    [/takhtits/]. *)
Lemma create_takhtit_post_cases w api s resp :
  received (emitted (create_takhtit w api) s) "POST" (api +:+ "/takhtits/") resp ->
  (status_code resp ≠ 201 ->
     (create_takhtit w api s).1 = Exited 1 ∧
     fs (create_takhtit w api s).2 = fs s ∧
     last (emitted (create_takhtit w api) s) =
       Some (EvPrint [FStr "Failed to create Takhtit."])) ∧
  (∀ d, status_code resp = 201 -> json resp = inr (PDict d) ->
     truthy (default PNone (d !! "uuid")) = false ->
     (create_takhtit w api s).1 = Normal tt ∧
     fs (create_takhtit w api s).2 = fs s ∧
     last (emitted (create_takhtit w api) s) =
       Some (EvPrint [FStr "Takhtit created but no UUID in response."])) ∧
  (∀ d u, status_code resp = 201 -> json resp = inr (PDict d) ->
     d !! "uuid" = Some (PStr u) -> u ≠ EmptyString ->
     (create_takhtit w api s).1 = Normal tt ∧
     fs (create_takhtit w api s).2 = Files (token_file (fs s)) (Some u)).
Proof.
  unfold emitted.
  run_of (create_takhtit w api) s.
  unfold create_takhtit, load_token. unfold_M. simpl.
  destruct (truthy (of_opt (read_stripped <$> token_file (fs s)))) eqn:Htok; simpl.
  2:{ got_result. intros (h & b & Hin). elem_cases Hin. }
  destruct (create_user w api s) as [o1 s1] eqn:E1.
  apply create_user_inv in E1 as (Hfs & evs & Htr & Hposts & _ & _).
  unfold_io. unfold try_except, py_iter. simpl.
  destruct o1 as [v|e|c]; simpl; exec; try scan_keeps_state; got_result.
  all: rewrite Htr, <- ?(assoc_L (++)), drop_app_length.
  all: try (intros (hh & bb & Hin); apply Hposts in Hin as [_ Hurl]; simpl in Hurl;
            symmetry in Hurl; by apply users_is_not_takhtits in Hurl).
  all: intros (hh & bb & Hin); apply elem_of_app in Hin as [Hin|Hin];
    [ apply Hposts in Hin as [_ Hurl]; simpl in Hurl;
      symmetry in Hurl; by apply users_is_not_takhtits in Hurl
    | elem_cases Hin ].
  all: injection Hin as -> -> ->.
  all: rewrite ?Hfs, ?last_app; simpl.
  all: split_and!.
  all: try (intros Hst; split_and!; try done;
            match goal with
            | H : (status_code _ =? 201) = true |- _ => apply Z.eqb_eq in H; done
            end).
  all: try (intros dd Hst Hj Hu;
            match goal with
            | H : (status_code _ =? 201) = false |- _ => rewrite Hst in H; discriminate
            | H : json _ = _ |- _ => rewrite H in Hj; try discriminate Hj;
                                     injection Hj as <-
            end;
            try match goal with
            | H : default PNone _ = _ |- _ => rewrite H in Hu; simpl in Hu
            end;
            subst; simpl in *; try discriminate; try done; congruence).
  all: intros dd uu Hst Hj Hu Hne;
       match goal with
       | H : (status_code _ =? 201) = false |- _ => rewrite Hst in H; discriminate
       | H : json _ = _ |- _ => rewrite H in Hj; try discriminate Hj;
                                injection Hj as <-
       end;
       match goal with
       | H : default PNone _ = _ |- _ => rewrite Hu in H; simpl in H
       | H : truthy (default PNone _) = false |- _ =>
           rewrite Hu in H; simpl in H;
           apply negb_false_iff, String.eqb_eq in H; done
       end;
       try discriminate;
       match goal with
       | H : PStr _ = PStr _ |- _ => injection H as ->
       end;
       try done;
       match goal with
       | H : negb (String.eqb _ _) = false |- _ =>
           apply negb_false_iff, String.eqb_eq in H; done
       end.
Qed.

(** X7. When the server answers the POST to [/takhtits/] with status 201
    and a JSON object whose [uuid] member is a non-empty string,
    [create_takhtit] stores that string as the takhtit identifier, in
    place of any earlier one, keeps the token file and returns
    normally. *)
Theorem create_takhtit_saves_identifier (w : World) (api : string) (s : state)
    (resp : response) (d : gmap string pyval) (u : string) :
  received (emitted (create_takhtit w api) s) "POST" (api +:+ "/takhtits/") resp ->
  status_code resp = 201 ->
  json resp = inr (PDict d) ->
  d !! "uuid" = Some (PStr u) ->
  u ≠ EmptyString ->
  (create_takhtit w api s).1 = Normal tt ∧
  fs (create_takhtit w api s).2 = Files (token_file (fs s)) (Some u).
Proof.
  intros Hrecv Hst Hj Hu Hne.
  destruct (create_takhtit_post_cases w api s resp Hrecv) as (_ & _ & H).
  by eapply H.
Qed.

Lemma create_takhtit_saves_identifier_witness :
  (create_takhtit (sample_world (takhtit_server [warsh; hafs]) []) "http://api"
     (State (Files (Some "token") (Some "takhtit-0")) [] 0)).1 = Normal tt ∧
  fs (create_takhtit (sample_world (takhtit_server [warsh; hafs]) []) "http://api"
        (State (Files (Some "token") (Some "takhtit-0")) [] 0)).2
    = Files (Some "token") (Some "takhtit-1").
Proof.
  apply (create_takhtit_saves_identifier
           (sample_world (takhtit_server [warsh; hafs]) []) "http://api"
           (State (Files (Some "token") (Some "takhtit-0")) [] 0)
           (Response 201 "{...}" (inr (PDict {[ "uuid" := PStr "takhtit-1" ]})))
           {[ "uuid" := PStr "takhtit-1" ]} "takhtit-1").
  - eexists _, _. vm_compute. repeat constructor.
  - reflexivity.
  - reflexivity.
  - vm_compute. reflexivity.
  - discriminate.
Defined.

(** X8. When the server answers the POST to [/takhtits/] with status 201
    and a JSON object whose [uuid] member is missing, null or otherwise
    falsy, [create_takhtit] prints a warning and returns normally: the
    process ends with status 0 although no identifier was stored, and an
    identifier cached earlier stays in place. *)
Theorem create_takhtit_without_identifier_is_not_fatal (w : World) (api : string)
    (s : state) (resp : response) (d : gmap string pyval) :
  received (emitted (create_takhtit w api) s) "POST" (api +:+ "/takhtits/") resp ->
  status_code resp = 201 ->
  json resp = inr (PDict d) ->
  truthy (default PNone (d !! "uuid")) = false ->
  (create_takhtit w api s).1 = Normal tt ∧
  fs (create_takhtit w api s).2 = fs s ∧
  last (emitted (create_takhtit w api) s) =
    Some (EvPrint [FStr "Takhtit created but no UUID in response."]).
Proof.
  intros Hrecv Hst Hj Hu.
  destruct (create_takhtit_post_cases w api s resp Hrecv) as (_ & H & _).
  by eapply H.
Qed.

Lemma create_takhtit_without_identifier_is_not_fatal_witness :
  let w := sample_world
             (takhtit_server_replying [hafs] (inr (Response 201 "{}" (inr (PDict ∅))))) [] in
  let s := State (Files (Some "token") (Some "takhtit-0")) [] 0 in
  (create_takhtit w "http://api" s).1 = Normal tt ∧
  fs (create_takhtit w "http://api" s).2 = Files (Some "token") (Some "takhtit-0") ∧
  last (emitted (create_takhtit w "http://api") s) =
    Some (EvPrint [FStr "Takhtit created but no UUID in response."]).
Proof.
  apply (create_takhtit_without_identifier_is_not_fatal
           (sample_world
              (takhtit_server_replying [hafs] (inr (Response 201 "{}" (inr (PDict ∅))))) [])
           "http://api" (State (Files (Some "token") (Some "takhtit-0")) [] 0)
           (Response 201 "{}" (inr (PDict ∅))) ∅).
  - eexists _, _. vm_compute. repeat constructor.
  - reflexivity.
  - reflexivity.
  - vm_compute. reflexivity.
Defined.

(** X9. When the server answers the POST to [/takhtits/] with a status
    other than 201, [create_takhtit] prints the failure and ends the
    process with status 1; the credential files are as before. *)
Theorem create_takhtit_rejected_is_fatal (w : World) (api : string) (s : state)
    (resp : response) :
  received (emitted (create_takhtit w api) s) "POST" (api +:+ "/takhtits/") resp ->
  status_code resp ≠ 201 ->
  (create_takhtit w api s).1 = Exited 1 ∧
  fs (create_takhtit w api s).2 = fs s ∧
  last (emitted (create_takhtit w api) s) =
    Some (EvPrint [FStr "Failed to create Takhtit."]).
Proof.
  intros Hrecv Hst.
  destruct (create_takhtit_post_cases w api s resp Hrecv) as (H & _ & _).
  by apply H.
Qed.

Lemma create_takhtit_rejected_is_fatal_witness :
  let w := sample_world (takhtit_server_replying [hafs]
       (inr (Response 400 "Bad Request" (inl (Exn RequestException "Expecting value"))))) [] in
  let s := State (Files (Some "token") None) [] 0 in
  (create_takhtit w "http://api" s).1 = Exited 1 ∧
  fs (create_takhtit w "http://api" s).2 = Files (Some "token") None ∧
  last (emitted (create_takhtit w "http://api") s) =
    Some (EvPrint [FStr "Failed to create Takhtit."]).
Proof.
  apply (create_takhtit_rejected_is_fatal
           (sample_world (takhtit_server_replying [hafs]
              (inr (Response 400 "Bad Request"
                      (inl (Exn RequestException "Expecting value"))))) [])
           "http://api" (State (Files (Some "token") None) [] 0)
           (Response 400 "Bad Request" (inl (Exn RequestException "Expecting value")))).
  - eexists _, _. vm_compute. repeat constructor.
  - discriminate.
Defined.

(** X10. [create_takhtit] creates the user first: whenever a run sends
    a request other than the POST to [/users/] (the listing of the
    mushafs, the creation of the takhtit), the run began with the creation
    of a user that the server answered with status 201. A run that then
    fails for want of a hafs mushaf, or at the creation of the takhtit,
    leaves that user behind. *)
Theorem create_takhtit_creates_user_first (w : World) (api : string) (s : state)
    (req : request) :
  req ∈ network_calls (emitted (create_takhtit w api) s) ->
  url req ≠ api +:+ "/users/" ->
  ∃ req0 resp0 v rest,
    emitted (create_takhtit w api) s = user_created_events req0 resp0 v ++ rest ∧
    method req0 = "POST" ∧ url req0 = api +:+ "/users/" ∧
    status_code resp0 = 201.
Proof.
  unfold emitted.
  run_of (create_takhtit w api) s.
  unfold create_takhtit, load_token. unfold_M. simpl.
  destruct (truthy (of_opt (read_stripped <$> token_file (fs s)))) eqn:Htok; simpl.
  2:{ got_result. intros Hin. simpl in Hin. elem_cases Hin. }
  destruct (create_user w api s) as [o1 s1] eqn:E1.
  apply create_user_inv in E1 as (Hfs & evs & Htr & Hposts & Hnormal & _).
  unfold_io. unfold try_except, py_iter. simpl.
  destruct o1 as [v|e|c]; simpl; exec; try scan_keeps_state; got_result.
  all: rewrite Htr, <- ?(assoc_L (++)), drop_app_length.
  all: try (intros Hin Hurl; apply elem_of_network_calls in Hin as [r0 Hin];
            apply Hposts in Hin as [_ Hin]; done).
  all: destruct (Hnormal v eq_refl) as (req0 & resp0 & dd0 & -> & Hst0 & _ & _).
  all: intros _ _; eexists req0, resp0, v, _; split; [reflexivity|].
  all: destruct (Hposts req0 (inr resp0)) as [Hm Hu]; [apply list_elem_of_here|].
  all: done.
Qed.

Lemma create_takhtit_creates_user_first_witness :
  let w := sample_world (takhtit_server [warsh]) [] in
  let s := State (Files (Some "token") None) [] 0 in
  ∃ req0 resp0 v rest,
    emitted (create_takhtit w "http://api") s = user_created_events req0 resp0 v ++ rest ∧
    method req0 = "POST" ∧ url req0 = "http://api" +:+ "/users/" ∧
    status_code resp0 = 201.
Proof.
  apply (create_takhtit_creates_user_first (sample_world (takhtit_server [warsh]) [])
           "http://api" (State (Files (Some "token") None) [] 0)
           (Request "GET" "http://api/mushafs/"
              [("Authorization", "Token token"); ("accept", "application/json");
               ("Content-Type", "application/json")] NoBody)).
  - vm_compute. repeat constructor.
  - vm_compute. discriminate.
Defined.

(** ** Importing into a takhtit *)

(** X11. import-takhtit with a token and a takhtit identifier cached. A
    path that is not a file ends the process with status 1 after one line
    of error, before the file is opened or a request sent. Otherwise the
    file is opened once and at most one request is sent: the POST of the
    file, under its file name, to
    [/takhtits/<identifier>/import/?type=<type>] with the headers
    [Authorization: Token <token>] and [accept: application/json]; the
    exit status is 0 when the answer has status 200 or 201 and 1
    otherwise. The credential files are untouched. *)
Theorem import_takhtit_outcome (w : World) (disk : files)
    (prog file_path type_name api tok uuid : string) :
  cached (token_file disk) tok -> tok ≠ EmptyString ->
  cached (takhtit_uuid_file disk) uuid -> uuid ≠ EmptyString ->
  let r := run_main w disk [prog; "import-takhtit"; file_path; type_name; api] in
  (path_isfile w [] file_path = false ->
     r = Result 1 disk [EvPrint [FStr ("File not found: " +:+ file_path)]]) ∧
  (path_isfile w [] file_path = true ->
     attempted (events r) = [file_path] ∧
     (network_calls (events r) = [] ∨
      ∃ req, network_calls (events r) = [req] ∧
        is_upload (api +:+ "/takhtits/" +:+ uuid +:+ "/import/?type=" +:+ type_name)
          [("Authorization", "Token " +:+ tok); ("accept", "application/json")]
          file_path req) ∧
     (exit_code r = 0 ∧ successes (events r) = 1%nat ∨
      exit_code r = 1 ∧ successes (events r) = 0%nat) ∧
     disk_after r = disk).
Proof.
  intros (ct & Ht & Htt & Hct) Hst (cu & Hu & Htu & Hcu) Hsu r. subst r.
  apply String.eqb_neq in Hst, Hsu.
  pose proof (basename_spec file_path) as Hname.
  unfold run_main, main, import_takhtit, load_token, load_takhtit_uuid, getitem.
  unfold_io. unfold_M. simpl.
  rewrite Ht. simpl. rewrite (read_stripped_trimming _ _ Htt Hct), Hst. simpl.
  rewrite Hu. simpl. rewrite (read_stripped_trimming _ _ Htu Hcu), Hsu. simpl.
  destruct (path_isfile w [] file_path); simpl.
  - split; [done|]. intros _.
    exec; unfold successes; simpl;
      rewrite ?status_succeeded_test;
      repeat match goal with
             | H : not_in_200_201 _ = _ |- _ => rewrite !H
             end; simpl;
      split_and!; auto;
      right; eexists; (split; [reflexivity|]); by eexists.
  - split; [done|]. intros ?. discriminate.
Qed.

Lemma import_takhtit_outcome_witness :
  let r := run_main (sample_world (takhtit_server [hafs]) [])
             (Files (Some "token") (Some (" takhtit-1" +:+ String "010" "")))
             ["script.py"; "import-takhtit"; "page.json"; "page"; "http://api"] in
  (true = false ->
     r = Result 1 (Files (Some "token") (Some (" takhtit-1" +:+ String "010" "")))
           [EvPrint [FStr ("File not found: " +:+ "page.json")]]) ∧
  (true = true ->
     attempted (events r) = ["page.json"] ∧
     (network_calls (events r) = [] ∨
      ∃ req, network_calls (events r) = [req] ∧
        is_upload ("http://api" +:+ "/takhtits/" +:+ "takhtit-1" +:+ "/import/?type=" +:+ "page")
          [("Authorization", "Token " +:+ "token"); ("accept", "application/json")]
          "page.json" req) ∧
     (exit_code r = 0 ∧ successes (events r) = 1%nat ∨
      exit_code r = 1 ∧ successes (events r) = 0%nat) ∧
     disk_after r = Files (Some "token") (Some (" takhtit-1" +:+ String "010" ""))).
Proof.
  apply (import_takhtit_outcome (sample_world (takhtit_server [hafs]) [])
           (Files (Some "token") (Some (" takhtit-1" +:+ String "010" "")))
           "script.py" "page.json" "page" "http://api" "token" "takhtit-1").
  - apply (cached_text "t" "n" "oke"); [reflexivity | reflexivity |].
    unfold no_cr. simpl. intros H. elem_cases H.
  - discriminate.
  - eexists. split; [reflexivity|]. split.
    + exists " ", (String "010" ""). split_and!; [reflexivity | repeat constructor .. |].
      apply (text_trimmed "t" "1" "akhtit-"); reflexivity.
    + unfold no_cr. simpl. intros H. elem_cases H.
  - discriminate.
Defined.

(** ** Creating the user *)

(** X12. With a token cached, every request [create_user] sends is the
    only one it sends: a POST to [/users/] under the headers
    [Authorization: Token <token>], [accept] and [Content-Type] of JSON,
    of a JSON object whose members [password] and [password2] are one and
    the same string, a password that satisfies the policy of the generator
    for length 16 (16 characters, one of each class), beside the fixed
    user name, e-mail address and names. *)
Theorem create_user_sends_strong_password (w : World) (api tok : string) (s : state)
    (req : request) :
  cached (token_file (fs s)) tok ->
  req ∈ network_calls (emitted (create_user w api) s) ->
  ∃ pw body,
    req = Request "POST" (api +:+ "/users/")
            [("Authorization", "Token " +:+ tok);
             ("accept", "application/json");
             ("Content-Type", "application/json")]
            (JsonBody (PDict body)) ∧
    body !! "password" = Some (PStr pw) ∧
    body !! "password2" = Some (PStr pw) ∧
    body !! "username" = Some (PStr "uthmantaha") ∧
    body !! "email" = Some (PStr "user@example.com") ∧
    body !! "first_name" = Some (PStr "Uthman") ∧
    body !! "last_name" = Some (PStr "Taha") ∧
    password_policy 16 pw ∧ String.length pw = 16%nat ∧
    network_calls (emitted (create_user w api) s) = [req].
Proof.
  intros (content & Hfile & Htrim & Hcr). unfold emitted.
  run_of (create_user w api) s.
  unfold create_user, load_token. unfold_M. simpl.
  rewrite Hfile. simpl. rewrite (read_stripped_trimming _ _ Htrim Hcr).
  destruct (negb (tok =? "")%string) eqn:Htok; simpl.
  2:{ got_result. intros Hin. simpl in Hin. elem_cases Hin. }
  destruct (generate_strong_password_rng_only w 16 s) as (pw & d & Epw & Hpw).
  rewrite Epw. unfold_io. unfold try_except. simpl.
  exec; got_result; intros Hin; simpl in Hin; elem_cases Hin; subst req;
    exists pw; eexists; (split; [reflexivity|]);
    split_and!; try done; try (by vm_compute).
  all: destruct Hpw as (Hlen & _); specialize (Hlen ltac:(lia)); lia.
Qed.

Lemma create_user_sends_strong_password_witness :
  ∃ pw body,
    Request "POST" "http://api/users/"
      [("Authorization", "Token token"); ("accept", "application/json");
       ("Content-Type", "application/json")]
      (JsonBody (user_payload "B#mhljnpfokige2a"))
    = Request "POST" ("http://api" +:+ "/users/")
        [("Authorization", "Token " +:+ "token");
         ("accept", "application/json");
         ("Content-Type", "application/json")]
        (JsonBody (PDict body)) ∧
    body !! "password" = Some (PStr pw) ∧
    body !! "password2" = Some (PStr pw) ∧
    body !! "username" = Some (PStr "uthmantaha") ∧
    body !! "email" = Some (PStr "user@example.com") ∧
    body !! "first_name" = Some (PStr "Uthman") ∧
    body !! "last_name" = Some (PStr "Taha") ∧
    password_policy 16 pw ∧ String.length pw = 16%nat ∧
    network_calls (emitted (create_user (sample_world (takhtit_server [hafs]) []) "http://api")
                     (State (Files (Some "token") None) [] 0))
    = [Request "POST" "http://api/users/"
         [("Authorization", "Token token"); ("accept", "application/json");
          ("Content-Type", "application/json")]
         (JsonBody (user_payload "B#mhljnpfokige2a"))].
Proof.
  apply (create_user_sends_strong_password (sample_world (takhtit_server [hafs]) [])
           "http://api" "token" (State (Files (Some "token") None) [] 0)).
  - apply (cached_text "t" "n" "oke"); [reflexivity | reflexivity |].
    unfold no_cr. simpl. intros H. elem_cases H.
  - vm_compute. apply list_elem_of_here.
Defined.

(** ** Batch import, further *)

(** X13. import-translations given a path that is not a directory ends
    with status 1 after one line of error: the directory is not listed,
    no file is opened, no request is sent, the credential files are
    untouched. *)
Theorem import_translations_rejects_missing_directory (w : World) (disk : files)
    (prog dir api : string) :
  path_isdir w [] dir = false ->
  run_main w disk [prog; "import-translations"; dir; api] =
    Result 1 disk [EvPrint [FStr ("Error: Directory '" +:+ dir +:+ "' does not exist.")]].
Proof.
  intros Hdir.
  unfold run_main, main, import_translations, getitem. unfold_io. unfold_M. simpl.
  by rewrite Hdir.
Qed.

Lemma import_translations_rejects_missing_directory_witness :
  run_main (without_directories (sample_world rejecting_server ["a.json"])) no_disk
    ["script.py"; "import-translations"; "missing"; "http://api"] =
  Result 1 no_disk [EvPrint [FStr ("Error: Directory '" +:+ "missing" +:+ "' does not exist.")]].
Proof.
  exact (import_translations_rejects_missing_directory
           (without_directories (sample_world rejecting_server ["a.json"])) no_disk
           "script.py" "missing" "http://api" eq_refl).
Defined.

(** ** The requests of a batch import *)

Lemma import_translations_step_calls w api token sc fc file_path s :
  ∃ counts evs,
    import_translations_step w api token (sc, fc) file_path s =
      (Normal counts, State (fs s) (trace s ++ evs) (draws s)) ∧
    network_calls evs =
      (fun path => Request "POST" (api +:+ "/translations/import/") (upload_headers token)
                     (FileBody (basename path) path "application/json")) <$> opened evs.
Proof.
  run_of (import_translations_step w api token (sc, fc) file_path) s.
  unfold import_translations_step, print_response, send_translation_to_api.
  unfold_io. unfold_M. simpl. exec.
  all: got_result.
  all: eexists _, _; split; [reflexivity|].
  all: done.
Qed.

Lemma opened_app tr1 tr2 : opened (tr1 ++ tr2) = opened tr1 ++ opened tr2.
Proof. apply omap_app. Qed.

Lemma import_translations_loop_calls w api token json_files : ∀ sc fc s,
  ∃ counts evs,
    import_translations_loop w api token (sc, fc) json_files s =
      (Normal counts, State (fs s) (trace s ++ evs) (draws s)) ∧
    network_calls evs =
      (fun path => Request "POST" (api +:+ "/translations/import/") (upload_headers token)
                     (FileBody (basename path) path "application/json")) <$> opened evs.
Proof.
  induction json_files as [|file_path rest IH]; intros sc fc s.
  - exists (sc, fc), []. simpl. rewrite app_nil_r. by destruct s.
  - destruct (import_translations_step_calls w api token sc fc file_path s)
      as ([sc1 fc1] & evs1 & E1 & N1).
    destruct (IH sc1 fc1 (State (fs s) (trace s ++ evs1) (draws s)))
      as (counts & evs2 & E2 & N2).
    exists counts, (evs1 ++ evs2).
    cbn [import_translations_loop]. unfold_M. rewrite E1, E2.
    rewrite network_calls_app, opened_app, fmap_app, N1, N2, (assoc_L (++)).
    by split_and!.
Qed.

(** X14. The requests of import-translations. On an existing directory
    the requests sent are the uploads to [/translations/import/] of the
    files that could be opened, one each and in order, each the POST of
    the file under its file name, all with the header
    [Authorization: Token <token>] of the token cached at the start (and
    without it when the token file is missing or blank); a file that
    cannot be opened is never sent. *)
Theorem import_translations_sends_opened_files (w : World) (disk : files)
    (prog dir api tok : string) :
  upload_token (token_file disk) tok ->
  path_isdir w [] dir = true ->
  let r := run_main w disk [prog; "import-translations"; dir; api] in
  Forall2 (is_upload (api +:+ "/translations/import/") (authorization tok))
    (opened (events r)) (network_calls (events r)).
Proof.
  intros Htok%upload_headers_token Hdir r. subst r.
  unfold run_main, main, import_translations, getitem. unfold_io. unfold_M. simpl.
  rewrite Hdir. simpl.
  destruct (glob_state w (path_join dir "*.json") (State disk [] 0)) as [json_files ->].
  case_bool_decide as Hfiles; simpl.
  { constructor. }
  destruct (import_translations_loop_calls w api
              (read_stripped <$> token_file disk) json_files 0 0 (State disk [] 0))
    as (counts & evs & E & N).
  cbn [fs trace draws] in E. rewrite E. simpl in *.
  assert (opened (evs ++ [EvPrint [FStr (import_summary counts)]]) = opened evs) as Ho.
  { rewrite opened_app. apply app_nil_r. }
  assert (network_calls (evs ++ [EvPrint [FStr (import_summary counts)]])
          = network_calls evs) as Hn.
  { rewrite network_calls_app. apply app_nil_r. }
  assert (Forall2 (is_upload (api +:+ "/translations/import/") (authorization tok))
            (opened evs) (network_calls evs)) as HF.
  { rewrite N, Htok. apply Forall2_fmap_r, Forall_Forall2_diag, Forall_forall.
    intros path _. exists (basename path). split; [apply basename_spec | done]. }
  case_bool_decide; simpl; by rewrite Ho, Hn.
Qed.

Lemma import_translations_sends_opened_files_witness :
  let r := run_main
      (sample_world (picky_server "translations/b.json") ["a.json"; "b.json"])
      (Files (Some "token") None)
      ["script.py"; "import-translations"; "translations"; "http://api"] in
  Forall2 (is_upload ("http://api" +:+ "/translations/import/")
             [("Authorization", "Token " +:+ "token")])
    (opened (events r)) (network_calls (events r)).
Proof.
  refine (import_translations_sends_opened_files
      (sample_world (picky_server "translations/b.json") ["a.json"; "b.json"])
      (Files (Some "token") None) "script.py" "translations" "http://api" "token"
      (or_intror _) eq_refl).
  apply (cached_text "t" "n" "oke"); [reflexivity | reflexivity |].
  unfold no_cr. simpl. intros H. elem_cases H.
Defined.

(** ** The password generator, further *)

Lemma choices_chars (w : World) (n : nat) (seq : string) :
  seq ≠ EmptyString ->
  rng_only (choices w n seq)
    (fun l => length l = n ∧ ∀ c, c ∈ l -> c ∈ list_ascii_of_string seq).
Proof.
  intros Hne. induction n as [|n IH]; simpl.
  - apply rng_only_ret. split; [done|]. intros c Hc. inversion Hc.
  - eapply rng_only_bind; [by apply secrets_choice_rng_only|].
    intros c Hc. eapply rng_only_bind; [exact IH|].
    intros cs [Lcs Hcs]. apply rng_only_ret. split; [simpl; by rewrite Lcs|].
    intros c' [->|Hc']%elem_of_cons; auto.
Qed.

(** Exchanging two positions brings in no element. *)
Lemma swapped_elem_of_inv (x : list ascii) i j xi xj c :
  x !! i = Some xi -> x !! j = Some xj ->
  c ∈ <[j := xi]> (<[i := xj]> x) -> c ∈ x.
Proof.
  intros Hi Hj [k Hk]%list_elem_of_lookup.
  apply list_lookup_insert_Some in Hk as [(-> & -> & _)|[_ Hk]].
  { by eapply list_elem_of_lookup_2. }
  apply list_lookup_insert_Some in Hk as [(-> & -> & _)|[_ Hk]].
  { by eapply list_elem_of_lookup_2. }
  by eapply list_elem_of_lookup_2.
Qed.

Lemma swap_chars (x : list ascii) (i j : nat) :
  (i < length x)%nat -> (j < length x)%nat ->
  rng_only (swap x i j)
    (fun x' => length x' = length x ∧ ∀ c, c ∈ x' -> c ∈ x).
Proof.
  intros Li Lj.
  destruct (lookup_lt_is_Some_2 x i Li) as [xi Hi].
  destruct (lookup_lt_is_Some_2 x j Lj) as [xj Hj].
  unfold swap.
  eapply rng_only_bind; [by apply getitem_rng_only|]. intros ? ->.
  eapply rng_only_bind; [by apply getitem_rng_only|]. intros ? ->.
  apply rng_only_ret. split.
  - apply swapped_length.
  - intros c. by apply swapped_elem_of_inv.
Qed.

Lemma shuffle_from_chars (w : World) (i : nat) (x : list ascii) :
  (i < length x)%nat ->
  rng_only (shuffle_from w i x)
    (fun x' => length x' = length x ∧ ∀ c, c ∈ x' -> c ∈ x).
Proof.
  revert x. induction i as [|i IH]; intros x Li; simpl.
  - by apply rng_only_ret.
  - eapply rng_only_bind; [apply randbelow_rng_only; lia|].
    intros j Hj. cbv beta in Hj.
    eapply rng_only_bind; [apply swap_chars; lia|].
    intros x' [Lx' Hx']. eapply rng_only_weaken; [apply IH; lia|].
    intros x'' [Lx'' Hx'']. split; [congruence | auto].
Qed.

Lemma alphabet_password_char c :
  c ∈ list_ascii_of_string (ascii_letters +:+ digits +:+ symbols) ->
  password_char c = true.
Proof. revert c. apply Forall_forall. repeat (constructor; [reflexivity|]). constructor. Qed.

(** X15. Whatever the random source yields and whatever length is asked
    for, every character of the generated password is an ASCII letter, a
    digit or one of "-_@#$%". *)
Theorem generate_strong_password_alphabet (w : World) (n : Z) (s : state) :
  ∃ pw d,
    generate_strong_password w n s = (Normal pw, set_draws d s) ∧
    Forall (fun c => password_char c = true) (list_ascii_of_string pw).
Proof.
  revert s. change (rng_only (generate_strong_password w n)
    (fun pw => Forall (fun c => password_char c = true) (list_ascii_of_string pw))).
  unfold generate_strong_password.
  eapply rng_only_bind; [by apply secrets_choice_rng_only|]. intros c1 H1.
  eapply rng_only_bind; [by apply secrets_choice_rng_only|]. intros c2 H2.
  eapply rng_only_bind; [by apply secrets_choice_rng_only|]. intros c3 H3.
  eapply rng_only_bind; [by apply secrets_choice_rng_only|]. intros c4 H4.
  eapply rng_only_bind; [by apply choices_chars|]. intros more [_ Hmore].
  eapply rng_only_bind; [apply shuffle_from_chars; simpl; lia|]. intros x [_ Hx].
  apply rng_only_ret. rewrite list_ascii_of_string_of_list_ascii.
  apply Forall_forall. intros c Hc%Hx. unfold password_char.
  repeat (apply elem_of_cons in Hc as [->|Hc]).
  - by rewrite (lowercase_is_lower c1).
  - rewrite (uppercase_is_upper c2) by done. by rewrite orb_true_r.
  - rewrite (digits_is_digit c3) by done. by rewrite !orb_true_r.
  - rewrite (symbols_is_symbol c4) by done. by rewrite !orb_true_r.
  - by apply alphabet_password_char, Hmore.
Qed.

(** ** Loading a credential *)

(** X16. [load_token] and [load_takhtit_uuid] change nothing and return
    the absent value exactly when their file does not exist. What they
    return never begins or ends with whitespace; and when the file holds
    a text without carriage return between whitespace, that text is what
    they return. *)
Theorem loaded_credentials_are_trimmed (s : state) :
  (∃ t, load_token s = (Normal t, s) ∧
        (t = None <-> token_file (fs s) = None) ∧
        (∀ v, t = Some v -> trimmed v) ∧
        (∀ v, cached (token_file (fs s)) v -> t = Some v)) ∧
  (∃ u, load_takhtit_uuid s = (Normal u, s) ∧
        (u = None <-> takhtit_uuid_file (fs s) = None) ∧
        (∀ v, u = Some v -> trimmed v) ∧
        (∀ v, cached (takhtit_uuid_file (fs s)) v -> u = Some v)).
Proof.
  unfold load_token, load_takhtit_uuid.
  split; eexists; (split; [reflexivity|]).
  - destruct (token_file (fs s)) as [c|]; simpl; split_and!; try done.
    + intros v [= <-]. apply strip_trimmed.
    + intros v (? & [= <-] & Htrim & Hcr). by rewrite (read_stripped_trimming c v).
    + by intros v (? & [=] & _).
  - destruct (takhtit_uuid_file (fs s)) as [c|]; simpl; split_and!; try done.
    + intros v [= <-]. apply strip_trimmed.
    + intros v (? & [= <-] & Htrim & Hcr). by rewrite (read_stripped_trimming c v).
    + by intros v (? & [=] & _).
Qed.

(** A token file written on another platform, or by hand: the line end
    goes, a carriage return inside is read as a line feed. *)
Example load_token_reads_text :
  (load_token (State (Files (Some ("tok" +:+ String "013" (String "010" ""))) None) [] 0)).1
    = Normal (Some "tok") ∧
  (load_token (State (Files (Some (String "x" (String "013" "y"))) None) [] 0)).1
    = Normal (Some (String "x" (String "010" "y"))).
Proof. by vm_compute. Qed.

(** ** What every run keeps *)

#[local] Arguments login : simpl never.
#[local] Arguments import_translations_loop : simpl never.

Lemma login_frame w api ou op s :
  takhtit_uuid_file (fs (login w api ou op s).2) = takhtit_uuid_file (fs s) ∧
  exit01 (login w api ou op s).1 ∧
  (ou ≠ None -> op ≠ None -> ∀ e, (login w api ou op s).1 ≠ Raised e).
Proof.
  run_of (login w api ou op) s.
  unfold login, exit01. unfold_io. unfold_M.
  destruct ou as [u|], op as [p|]; simpl; exec; got_result;
    split_and!; auto; try done; intros; done.
Qed.

Lemma import_one_frame w usage send args s :
  send = send_file_to_api w ∨ send = send_translation_to_api w ->
  fs (import_one w usage send args s).2 = fs s ∧
  exit01 (import_one w usage send args s).1.
Proof.
  intros Hsend.
  run_of (import_one w usage send args) s.
  unfold import_one, print_response, exit01.
  destruct Hsend as [-> | ->];
    unfold send_file_to_api, send_translation_to_api;
    unfold_io; unfold_M; simpl; exec; got_result; auto.
Qed.

Lemma import_translations_frame w args s :
  fs (import_translations w args s).2 = fs s ∧
  exit01 (import_translations w args s).1.
Proof.
  run_of (import_translations w args) s.
  unfold import_translations, exit01. unfold_io. unfold_M. simpl.
  exec;
    try match goal with
        | H : glob ?w0 ?p ?st = _ |- _ =>
            let El := fresh in
            destruct (glob_state w0 p st) as [? El];
            rewrite El in H; first [ discriminate H | injection H as ? ?; subst ]
        end;
    try match goal with
        | H : import_translations_loop ?w0 ?api ?tok (?sc, ?fc) ?l ?st = _ |- _ =>
            let E := fresh in
            destruct (import_translations_loop_run w0 api tok l sc fc st)
              as (sc' & fc' & evs & E & _);
            rewrite E in H; first [ discriminate H | injection H as <- <- ]
        end;
    got_result; auto; try discriminate.
Qed.

Lemma login_command_frame w args s :
  takhtit_uuid_file (fs (login_command w args s).2) = takhtit_uuid_file (fs s) ∧
  exit01 (login_command w args s).1.
Proof.
  run_of (login_command w args) s.
  unfold login_command, list_index, exit01. unfold_io. unfold_M. simpl.
  exec.
  all: try match goal with
        | H : login ?w0 ?a ?u ?p ?st = _ |- _ =>
            let F := fresh in
            pose proof (login_frame w0 a u p st) as F; rewrite H in F; simpl in F;
            destruct F as (F1 & F2 & F3)
        end.
  all: try (got_result; unfold exit01 in *; simpl in *; auto; fail).
  all: intros E;
       match type of E with
       | login ?w0 ?a ?u ?p ?st = _ =>
           pose proof (login_frame w0 a u p st) as (F1 & F2 & _);
           rewrite E in F1, F2; done
       end.
Qed.

Lemma find_hafs_never_exits (l : list pyval) (s : state) (c : Z) :
  (find_hafs l s).1 ≠ Exited c.
Proof.
  induction l as [|m l IH]; [done|].
  destruct m; try done.
  change (((if eq_str (default PNone (d !! "short_name")) "hafs"
            then py_get (PDict d) "uuid" else find_hafs l) s).1 ≠ Exited c).
  by destruct (eq_str (default PNone (d !! "short_name")) "hafs").
Qed.

Lemma create_user_exit01 w api s : exit01 (create_user w api s).1.
Proof.
  run_of (create_user w api) s.
  unfold create_user, load_token, exit01. unfold_M. simpl.
  destruct (truthy (of_opt (read_stripped <$> token_file (fs s)))) eqn:Htok; simpl.
  2:{ got_result. auto. }
  destruct (generate_strong_password_returns w 16 s) as (pw & d & Epw & _).
  rewrite Epw. unfold_io. unfold try_except. simpl.
  exec; got_result; auto.
Qed.

Lemma create_takhtit_frame w api s :
  token_file (fs (create_takhtit w api s).2) = token_file (fs s) ∧
  exit01 (create_takhtit w api s).1.
Proof.
  run_of (create_takhtit w api) s.
  unfold create_takhtit, load_token, exit01. unfold_M. simpl.
  destruct (truthy (of_opt (read_stripped <$> token_file (fs s)))) eqn:Htok; simpl.
  2:{ got_result. auto. }
  pose proof (create_user_exit01 w api s) as Hexit.
  destruct (create_user w api s) as [o1 s1] eqn:E1.
  apply create_user_inv in E1 as (Hfs & evs & Htr & _ & _ & _).
  unfold_io. unfold try_except, py_iter. simpl.
  destruct o1 as [v|e|c]; simpl; exec;
    try match goal with
        | H : find_hafs ?l ?st = (Exited ?c, _) |- _ =>
            exfalso; apply (find_hafs_never_exits l st c); by rewrite H
        end;
    try scan_keeps_state; got_result; rewrite ?Hfs; auto.
Qed.

Lemma import_takhtit_frame w file_path type_name api s :
  fs (import_takhtit w file_path type_name api s).2 = fs s ∧
  exit01 (import_takhtit w file_path type_name api s).1.
Proof.
  run_of (import_takhtit w file_path type_name api) s.
  unfold import_takhtit, exit01. unfold_io. unfold_M. simpl.
  exec; got_result; auto.
Qed.

Lemma print_lines_run lines s :
  print_lines lines s = (Normal tt, State (fs s) (trace s ++ printed lines) (draws s)).
Proof.
  revert s. induction lines as [|l lines IH]; intros s; simpl.
  - rewrite app_nil_r. by destruct s.
  - unfold_M. simpl. rewrite IH. simpl. by rewrite <- (assoc_L (++)).
Qed.

#[local] Arguments login_command : simpl never.
#[local] Arguments import_one : simpl never.
#[local] Arguments import_translations : simpl never.
#[local] Arguments create_takhtit : simpl never.
#[local] Arguments import_takhtit : simpl never.
#[local] Arguments print_lines : simpl never.

(** Every run of [main]: the token file changes under the command login
    at most, the file of the takhtit identifier under create-takhtit at
    most, and the outcome ends the process with status 0 or 1. *)
Lemma main_frame w args s :
  (args !! 1%nat ≠ Some "login" ->
     token_file (fs (main w args s).2) = token_file (fs s)) ∧
  (args !! 1%nat ≠ Some "create-takhtit" ->
     takhtit_uuid_file (fs (main w args s).2) = takhtit_uuid_file (fs s)) ∧
  exit01 (main w args s).1.
Proof.
  unfold main, getitem. unfold_M.
  destruct args as [|prog [|command rest]].
  1,2: rewrite bool_decide_eq_true_2 by (simpl; lia); cbv iota beta;
       rewrite print_lines_run; simpl; unfold exit01; simpl; auto.
  rewrite bool_decide_eq_false_2 by (simpl; lia).
  change ((prog :: command :: rest) !! 1%nat) with (Some command).
  cbv iota beta zeta.
  destruct (String.eqb_spec command "login") as [->|Hlogin].
  { pose proof (login_command_frame w (prog :: "login" :: rest) s) as [F1 F2].
    split_and!; done. }
  destruct (String.eqb_spec command "import-mushaf") as [->|_].
  { pose proof (import_one_frame w usage_import_mushaf (send_file_to_api w)
                  (prog :: "import-mushaf" :: rest) s (or_introl eq_refl)) as [F1 F2].
    rewrite F1. done. }
  destruct (String.eqb_spec command "import-translations") as [->|_].
  { pose proof (import_translations_frame w (prog :: "import-translations" :: rest) s)
      as [F1 F2].
    rewrite F1. done. }
  destruct (String.eqb_spec command "import-translation") as [->|_].
  { pose proof (import_one_frame w usage_import_translation (send_translation_to_api w)
                  (prog :: "import-translation" :: rest) s (or_intror eq_refl)) as [F1 F2].
    rewrite F1. done. }
  destruct (String.eqb_spec command "create-takhtit") as [->|Hct].
  { destruct (bool_decide (length (prog :: "create-takhtit" :: rest) = 3%nat)); simpl;
      [|unfold exit01; simpl; auto].
    destruct rest as [|api rest]; simpl; [unfold exit01; simpl; auto|].
    pose proof (create_takhtit_frame w api s) as [F1 F2].
    destruct (create_takhtit w api s) as [[] ?]; simpl in *; split_and!; done. }
  destruct (String.eqb_spec command "import-takhtit") as [->|_].
  { destruct (bool_decide (length (prog :: "import-takhtit" :: rest) = 5%nat)); simpl;
      [|unfold exit01; simpl; auto].
    destruct rest as [|a1 [|a2 [|a3 rest]]]; simpl; try (unfold exit01; simpl; auto; fail).
    pose proof (import_takhtit_frame w a1 a2 a3 s) as [F1 F2].
    destruct (import_takhtit w a1 a2 a3 s) as [[] ?]; simpl in *; rewrite F1; done. }
  simpl. unfold exit01. simpl. auto.
Qed.

(** X17. Over every run of the script, whatever the arguments, the
    server and the terminal: the token file is changed by the command
    login at most, and the file of the takhtit identifier by the command
    create-takhtit at most. *)
Theorem credential_files_change_under_their_command_only (w : World) (disk : files)
    (argv : list string) :
  (argv !! 1%nat ≠ Some "login" ->
     token_file (disk_after (run_main w disk argv)) = token_file disk) ∧
  (argv !! 1%nat ≠ Some "create-takhtit" ->
     takhtit_uuid_file (disk_after (run_main w disk argv)) = takhtit_uuid_file disk).
Proof.
  destruct (main_frame w argv (State disk [] 0)) as (Ht & Hu & _). done.
Qed.

(** X18. Every run of the script ends with exit status 0 or 1, whatever
    the arguments, the server and the terminal: 1 is the one argument
    [sys.exit] is ever called with, and the status of an uncaught
    exception. *)
Theorem exit_status_is_0_or_1 (w : World) (disk : files) (argv : list string) :
  exit_code (run_main w disk argv) = 0 ∨ exit_code (run_main w disk argv) = 1.
Proof.
  destruct (main_frame w argv (State disk [] 0)) as (_ & _ & H). exact H.
Qed.

(** ** The flag of the login command *)

Lemma list_find_flag_after (pre post : list string) :
  flag ∉ pre ->
  list_find (fun a => a = flag) (pre ++ flag :: post) = Some (length pre, flag).
Proof.
  induction pre as [|a pre IH]; intros Hpre; simpl.
  - reflexivity.
  - rewrite decide_False by (intros ->; apply Hpre; apply list_elem_of_here).
    rewrite IH; [done|]. intros H. apply Hpre. by apply list_elem_of_further.
Qed.

(** With both credentials supplied, [login] does not raise. *)
Lemma login_supplied_run w api u p s :
  try_except (login w api (Some u) (Some p)) any_exception
    (fun _ => print_str usage_login_flag;; sys_exit 1) s
  = login w api (Some u) (Some p) s.
Proof.
  pose proof (login_frame w api (Some u) (Some p) s) as (_ & _ & H).
  unfold try_except.
  destruct (login w api (Some u) (Some p) s) as [[| e |] s']; try done.
  by destruct (H ltac:(done) ltac:(done) e).
Qed.

(** X19. With the URL and both credentials supplied, the flag
    [--non-interactive] makes no difference, wherever it stands after the
    command: the run with the flag is the run without it. *)
Theorem login_flag_makes_no_difference (w : World) (disk : files)
    (args : list string) (i : nat) :
  length args = 5%nat ->
  args !! 1%nat = Some "login" ->
  flag ∉ args ->
  (2 <= i <= 5)%nat ->
  run_main w disk (take i args ++ flag :: drop i args) = run_main w disk args.
Proof.
  intros Hlen Hcmd Hflag Hi.
  assert (flag ∉ take i args) as Hpre.
  { intros (k & Hk & _)%elem_of_take. apply Hflag. by eapply list_elem_of_lookup_2. }
  assert (length (take i args) = i) as Hlpre by (rewrite length_take; lia).
  assert ((take i args ++ flag :: drop i args) !! 1%nat = Some "login") as Hcmd'.
  { rewrite lookup_app_l by lia. rewrite lookup_take_lt by lia. done. }
  assert (login_command w (take i args ++ flag :: drop i args) (State disk [] 0)
          = login_command w args (State disk [] 0)) as E.
  { unfold login_command.
    rewrite bool_decide_eq_true_2 by (apply elem_of_app; right; apply list_elem_of_here).
    rewrite (bool_decide_eq_false_2 (flag ∈ args)) by done.
    unfold list_index. rewrite list_find_flag_after by done. rewrite Hlpre.
    unfold_M. cbv beta iota zeta.
    rewrite (take_app_length' (take i args)) by done.
    rewrite (drop_app_add' (take i args) _ i 1) by done.
    change (drop 1 (flag :: drop i args)) with (drop i args).
    rewrite take_drop.
    destruct args as [|a0 [|a1 [|a2 [|a3 [|a4 [|]]]]]]; try discriminate Hlen.
    unfold getitem. unfold_M. simpl.
    pose proof (login_supplied_run w a2 a3 a4 (State disk [] 0)) as Hrun.
    unfold try_except, print_str, print in Hrun. unfold_M. exact Hrun. }
  unfold run_main, main, getitem. unfold_M.
  rewrite (bool_decide_eq_false_2
             (length (take i args ++ flag :: drop i args) < 2)%nat)
    by (rewrite length_app, length_take; simpl; lia).
  rewrite (bool_decide_eq_false_2 (length args < 2)%nat) by lia.
  rewrite Hcmd, Hcmd'. cbv iota beta zeta.
  change (String.eqb "login" "login") with true. cbv iota.
  by rewrite E.
Qed.

Lemma login_flag_makes_no_difference_witness :
  run_main (sample_world (granting_server (PStr "abc123")) []) no_disk
    ["script.py"; "login"; "--non-interactive"; "http://api"; "reader"; "secret"]
  = run_main (sample_world (granting_server (PStr "abc123")) []) no_disk
      ["script.py"; "login"; "http://api"; "reader"; "secret"].
Proof.
  apply (login_flag_makes_no_difference
           (sample_world (granting_server (PStr "abc123")) []) no_disk
           ["script.py"; "login"; "http://api"; "reader"; "secret"] 2).
  - reflexivity.
  - reflexivity.
  - intros H. elem_cases H.
  - lia.
Defined.
